(** * Verification model of [trading_bot.py]

    A shallow embedding of the order-entry workflows of the Binance
    Futures trading bot: the input validator, the three order senders of
    [TradingBot], the interactive menus of [TradingBotCLI] and the
    flag-driven path of [main].

    Python values crossing the exchange boundary are JSON-like values;
    floats are IEEE binary64 values ([spec_float] with precision 53);
    text is ASCII text ([strip], [upper], [lower], [repr] and the
    literals [float] reads are those of code points below 128).  The exchange client, the operator's keyboard and the
    console are modelled by a trace of events: a piece of program maps
    the events so far and the pending input lines to an outcome, the
    events it causes and the lines it leaves.  The exchange is any
    function of the events so far and of the call.

    Outside the model: the parsing of the command line (its result, the
    [Namespace], is an input), the set-up of the log handlers, and the
    interruption of the program from the keyboard. *)

From Stdlib Require Import ZArith List String Ascii Bool Lia Arith.
From Stdlib Require Import Floats.SpecFloat.
Import ListNotations.
Open Scope string_scope.
Open Scope list_scope.

(* ===================================================================== *)
(** * Python primitives used by the program *)
(* ===================================================================== *)

Module Py.

(** ** Floats: binary64 *)

Definition prec : Z := 53.
Definition emax : Z := 1024.

Definition float := spec_float.

Definition fzero : float := S754_zero false.
Definition nan : float := S754_nan.
Definition inf (neg : bool) : float := S754_infinity neg.

(** [x <= y], [x >= y] and [x != y] on floats; every ordered comparison
    with NaN is false. *)
Definition fle (x y : float) : bool := SFleb x y.
Definition fge (x y : float) : bool := SFleb y x.
Definition fne (x y : float) : bool := negb (SFeqb x y).

(** Truth value of a float: false exactly for [0.0] and [-0.0]. *)
Definition float_truthy (x : float) : bool :=
  match x with S754_zero _ => false | _ => true end.

(** The binary64 value nearest to [(-1)^neg * m * 10^e] (ties to even),
    the value CPython's correctly rounded string conversion yields. *)
Definition dec_to_float (neg : bool) (m : N) (e : Z) : float :=
  match m with
  | N0 => S754_zero neg
  | Npos p =>
      if (0 <=? e)%Z then
        binary_normalize prec emax
          (cond_Zopp neg (Zpos p * 10 ^ e)) 0 neg
      else
        let d := (10 ^ (- e))%Z in
        let s := Z.max 0 (Z.log2 d + 64 - Z.log2 (Zpos p)) in
        let n := (Zpos p * 2 ^ s)%Z in
        let q := (n / d)%Z in
        let sticky := if (n mod d =? 0)%Z then 0%Z else 1%Z in
        binary_normalize prec emax
          (cond_Zopp neg (2 * q + sticky)) (- s - 1) neg
  end.

(** [float(i)] for an integer within range. *)
Definition float_of_Z (z : Z) : float :=
  binary_normalize prec emax z 0 false.

(** ** Text *)

Definition code (c : ascii) : nat := nat_of_ascii c.

(** [str.isspace] on the ASCII range: TAB..CR, FS..US and the blank. *)
Definition is_space (c : ascii) : bool :=
  let n := code c in
  ((9 <=? n) && (n <=? 13) || (28 <=? n) && (n <=? 32))%nat.

Definition is_digit (c : ascii) : bool :=
  let n := code c in ((48 <=? n) && (n <=? 57))%nat.

Definition upper_char (c : ascii) : ascii :=
  let n := code c in
  if ((97 <=? n) && (n <=? 122))%nat then ascii_of_nat (n - 32) else c.

Definition lower_char (c : ascii) : ascii :=
  let n := code c in
  if ((65 <=? n) && (n <=? 90))%nat then ascii_of_nat (n + 32) else c.

Fixpoint map_string (f : ascii -> ascii) (s : string) : string :=
  match s with
  | EmptyString => EmptyString
  | String c r => String (f c) (map_string f r)
  end.

(** [s.upper()] and [s.lower()]. *)
Definition upper (s : string) : string := map_string upper_char s.
Definition lower (s : string) : string := map_string lower_char s.

Fixpoint lstrip (s : string) : string :=
  match s with
  | EmptyString => EmptyString
  | String c r => if is_space c then lstrip r else s
  end.

(** Removes trailing white space: a character is kept when something
    that is kept follows it, or when it is not white space. *)
Fixpoint rstrip (s : string) : string :=
  match s with
  | EmptyString => EmptyString
  | String c r =>
      match rstrip r with
      | EmptyString => if is_space c then EmptyString else String c EmptyString
      | r' => String c r'
      end
  end.

(** [s.strip()]. *)
Definition strip (s : string) : string := rstrip (lstrip s).

(** [s * n] for a one-character pattern, as in ["=" * 50]. *)
Fixpoint times (c : ascii) (n : nat) : string :=
  match n with O => EmptyString | S k => String c (times c k) end.

(** Truth value of a string. *)
Definition str_truthy (s : string) : bool :=
  match s with EmptyString => false | _ => true end.

(** ** Exceptions and results *)

(** The exceptions the program can meet; all of them derive from
    [Exception].  [OtherException] stands for any further class raised
    by the exchange client (transport errors and the like). *)
Inductive exn : Type :=
| ValueError (msg : string)
| KeyError (key : string)
| TypeError (msg : string)
| AttributeError (msg : string)
| OverflowError (msg : string)
| EOFError
| BinanceAPIException (code : Z) (msg : string)
| BinanceOrderException (code : Z) (msg : string)
| OtherException (name msg : string).

(** Outcome of an expression: a value or a raised exception. *)
Inductive res (A : Type) : Type :=
| Ret (a : A)
| Raise (e : exn).
Arguments Ret {A} a.
Arguments Raise {A} e.

Definition rbind {A B} (m : res A) (f : A -> res B) : res B :=
  match m with Ret a => f a | Raise e => Raise e end.

(** ** [float(text)] *)

Definition digit_val (c : ascii) : N := N.of_nat (code c - 48).

(** Reads a run of digits in which single underscores may separate two
    digits; returns the digits read and the text left. *)
Fixpoint scan_digits (after_digit : bool) (l : list ascii)
  : list N * list ascii :=
  match l with
  | [] => ([], [])
  | c :: r =>
      if is_digit c then
        let (ds, r') := scan_digits true r in (digit_val c :: ds, r')
      else if after_digit && Ascii.eqb c "_" then
        match r with
        | c2 :: _ => if is_digit c2 then scan_digits false r else ([], l)
        | [] => ([], l)
        end
      else ([], l)
  end.

Definition digits_value (ds : list N) : N :=
  fold_left (fun acc d => (10 * acc + d)%N) ds 0%N.

(** An optional sign: [true] for a minus. *)
Definition scan_sign (l : list ascii) : bool * list ascii :=
  match l with
  | c :: r =>
      if Ascii.eqb c "-" then (true, r)
      else if Ascii.eqb c "+" then (false, r)
      else (false, l)
  | [] => (false, l)
  end.

(** The exponent part, when there is one: [e] or [E], an optional sign
    and at least one digit, up to the end of the text. *)
Definition scan_exponent (l : list ascii) : option Z :=
  match l with
  | [] => Some 0%Z
  | c :: r =>
      if Ascii.eqb (lower_char c) "e" then
        let (neg, r1) := scan_sign r in
        match scan_digits false r1 with
        | ((_ :: _) as ds, []) =>
            Some (cond_Zopp neg (Z.of_N (digits_value ds)))
        | _ => None
        end
      else None
  end.

(** A decimal literal without its sign: digits, an optional point with
    digits on at least one side of it, an optional exponent.  Returns the
    digits as an integer and the power of ten scaling it. *)
Definition scan_decimal (l : list ascii) : option (N * Z) :=
  let (ip, r1) := scan_digits false l in
  let (fp, r2) :=
    match r1 with
    | c :: r =>
        if Ascii.eqb c "." then scan_digits false r else ([], r1)
    | [] => ([], r1)
    end in
  match ip, fp with
  | [], [] => None
  | _, _ =>
      match scan_exponent r2 with
      | Some ex =>
          Some (digits_value (ip ++ fp), (ex - Z.of_nat (List.length fp))%Z)
      | None => None
      end
  end.

(** The white space [float] drops around its literal in ASCII text:
    the blank, TAB, LF, VT, FF and CR (narrower than [str.strip], which
    also drops FS..US). *)
Definition float_space (c : ascii) : bool :=
  let n := code c in ((9 <=? n) && (n <=? 13) || (n =? 32))%nat.

Fixpoint lstrip_by (p : ascii -> bool) (s : string) : string :=
  match s with
  | EmptyString => EmptyString
  | String c r => if p c then lstrip_by p r else s
  end.

Fixpoint rstrip_by (p : ascii -> bool) (s : string) : string :=
  match s with
  | EmptyString => EmptyString
  | String c r =>
      match rstrip_by p r with
      | EmptyString => if p c then EmptyString else String c EmptyString
      | r' => String c r'
      end
  end.

Definition float_strip (s : string) : string :=
  rstrip_by float_space (lstrip_by float_space s).

(** [repr(s)] for ASCII text: single quotes, or double quotes when the
    text holds a single quote and no double quote; the backslash, the
    quote in use, TAB, LF and CR escaped by a backslash, the other
    control characters written [\xNN]. *)
Fixpoint has_char (c : ascii) (s : string) : bool :=
  match s with
  | EmptyString => false
  | String d r => Ascii.eqb c d || has_char c r
  end.

Definition hex_digit (n : nat) : ascii :=
  if (n <? 10)%nat then ascii_of_nat (48 + n) else ascii_of_nat (87 + n).

Definition repr_char (quote c : ascii) : string :=
  let n := code c in
  let bs := ascii_of_nat 92 in
  if Ascii.eqb c bs || Ascii.eqb c quote then String bs (String c EmptyString)
  else if (n =? 9)%nat then String bs "t"
  else if (n =? 10)%nat then String bs "n"
  else if (n =? 13)%nat then String bs "r"
  else if ((n <? 32) || (n =? 127))%nat then
    String bs (String "x" (String (hex_digit (n / 16))
                             (String (hex_digit (n mod 16)) EmptyString)))
  else String c EmptyString.

Fixpoint repr_body (quote : ascii) (s : string) : string :=
  match s with
  | EmptyString => EmptyString
  | String c r => (repr_char quote c ++ repr_body quote r)%string
  end.

Definition repr (s : string) : string :=
  let quote :=
    if has_char "'" s && negb (has_char (ascii_of_nat 34) s)
    then ascii_of_nat 34 else "'"%char in
  (String quote (repr_body quote s) ++ String quote EmptyString)%string.

Definition float_error (s : string) : exn :=
  ValueError ("could not convert string to float: " ++ repr s)%string.

(** [float(s)] for a string of ASCII text: white space around the
    literal is dropped; the literal is a sign followed by [inf],
    [infinity], [nan] (in any letter case) or a decimal literal. *)
Definition float_of_str (s : string) : res float :=
  let (neg, body) := scan_sign (list_ascii_of_string (float_strip s)) in
  let word := lower (string_of_list_ascii body) in
  if String.eqb word "inf" || String.eqb word "infinity" then Ret (inf neg)
  else if String.eqb word "nan" then Ret nan
  else
    match scan_decimal body with
    | Some (m, e) => Ret (dec_to_float neg m e)
    | None => Raise (float_error s)
    end.

(** ** JSON-like values *)

(** The values the exchange client returns: parsed JSON.  A dictionary is
    kept as an association list, the first binding of a key being the
    one a lookup finds. *)
#[warnings="-register-all"]
Inductive pyval : Type :=
| VNone
| VBool (b : bool)
| VInt (z : Z)
| VFloat (f : float)
| VStr (s : string)
| VList (l : list pyval)
| VDict (d : list (string * pyval)).

Fixpoint assoc {A} (k : string) (d : list (string * A)) : option A :=
  match d with
  | [] => None
  | (k', v) :: r => if String.eqb k' k then Some v else assoc k r
  end.

(** [v[k]] for a string key. *)
Definition getitem (v : pyval) (k : string) : res pyval :=
  match v with
  | VDict d =>
      match assoc k d with Some x => Ret x | None => Raise (KeyError k) end
  | VStr _ => Raise (TypeError "string indices must be integers")
  | VList _ => Raise (TypeError "list indices must be integers or slices")
  | _ => Raise (TypeError "object is not subscriptable")
  end.

(** [v.get(k, default)]. *)
Definition get (v : pyval) (k : string) (default : pyval) : res pyval :=
  match v with
  | VDict d =>
      Ret (match assoc k d with Some x => x | None => default end)
  | _ => Raise (AttributeError "object has no attribute 'get'")
  end.

(** [k in v] for a string key. *)
Definition contains (k : string) (v : pyval) : res bool :=
  match v with
  | VDict d => Ret (match assoc k d with Some _ => true | None => false end)
  | VList l =>
      Ret (existsb (fun x => match x with VStr s => String.eqb s k
                                        | _ => false end) l)
  | VStr s =>
      Ret (match index 0 k s with Some _ => true | None => false end)
  | _ => Raise (TypeError "argument is not iterable")
  end.

(** [v == s] and [v != s] for a string [s]. *)
Definition eq_str (v : pyval) (s : string) : bool :=
  match v with VStr s' => String.eqb s' s | _ => false end.
Definition ne_str (v : pyval) (s : string) : bool := negb (eq_str v s).

Fixpoint chars (s : string) : list pyval :=
  match s with
  | EmptyString => []
  | String c r => VStr (String c EmptyString) :: chars r
  end.

(** The items a [for] loop over [v] visits. *)
Definition iter (v : pyval) : res (list pyval) :=
  match v with
  | VList l => Ret l
  | VDict d => Ret (map (fun kv => VStr (fst kv)) d)
  | VStr s => Ret (chars s)
  | _ => Raise (TypeError "object is not iterable")
  end.

(** [len(v)]. *)
Definition len (v : pyval) : res nat :=
  match v with
  | VList l => Ret (List.length l)
  | VDict d => Ret (List.length d)
  | VStr s => Ret (String.length s)
  | _ => Raise (TypeError "object has no len()")
  end.

(** Truth value. *)
Definition truthy (v : pyval) : bool :=
  match v with
  | VNone => false
  | VBool b => b
  | VInt z => negb (z =? 0)%Z
  | VFloat f => float_truthy f
  | VStr s => str_truthy s
  | VList l => match l with [] => false | _ => true end
  | VDict d => match d with [] => false | _ => true end
  end.

(** [float(v)]. *)
Definition float_of (v : pyval) : res float :=
  match v with
  | VStr s => float_of_str s
  | VFloat f => Ret f
  | VInt z =>
      match float_of_Z z with
      | S754_infinity _ =>
          Raise (OverflowError "int too large to convert to float")
      | f => Ret f
      end
  | VBool b => Ret (float_of_Z (if b then 1 else 0))
  | _ => Raise (TypeError "float() argument must be a string or a number")
  end.

End Py.

Import Py.

(* ===================================================================== *)
(** * The world around the program *)
(* ===================================================================== *)

(** A formatted text, as an f-string builds it: literal pieces and
    interpolated values, kept apart so that the rendering of floats and
    of values stays out of the model. *)
Inductive piece : Type :=
| Txt (s : string)
| Flt (f : float)
| Val (v : pyval)
| Err (e : exn)
| Num (n : nat).

Definition fmt := list piece.

Inductive level : Type := INFO | ERROR.

(** The operations of the exchange client the program calls.
    [futures_create_order] is the submit operation; its argument is the
    keyword arguments of the call, in the order written. *)
Inductive call : Type :=
| Client_init (api_key api_secret : string) (testnet : bool)
| futures_account
| futures_exchange_info
| futures_symbol_ticker (symbol : string)
| futures_create_order (params : list (string * pyval))
| futures_get_open_orders (symbol : option string).

(** What the program does to the outside, in order.  [Input p None] is a
    prompt answered by the end of the input. *)
Inductive event : Type :=
| Input (prompt : fmt) (line : option string)
| Print (text : fmt)
| Log (lvl : level) (text : fmt)
| Call (c : call) (r : res pyval).

(** The environment: the exchange answers a call knowing everything that
    happened before it; the platform renders a millisecond time stamp
    ([datetime.fromtimestamp(v / 1000)], which depends on the local time
    zone and may raise). *)
Record platform : Type := {
  exchange : list event -> call -> res pyval;
  fromtimestamp_ms : pyval -> res string
}.

(** The run of a piece of program: its outcome, the events it caused and
    the input lines it left unread. *)
Record run (A : Type) : Type := mkRun {
  result : res A;
  events : list event;
  rest : list string
}.
Arguments mkRun {A} result events rest.
Arguments result {A} r.
Arguments events {A} r.
Arguments rest {A} r.

(** A piece of program: given the events so far and the pending input
    lines, a run. *)
Definition M (A : Type) : Type := list event -> list string -> run A.

Definition ret {A} (a : A) : M A := fun _ i => mkRun (Ret a) [] i.

Definition raise {A} (e : exn) : M A := fun _ i => mkRun (Raise e) [] i.

Definition lift {A} (r : res A) : M A := fun _ i => mkRun r [] i.

Definition bind {A B} (m : M A) (f : A -> M B) : M B :=
  fun h i =>
    match m h i with
    | mkRun (Ret a) t i' =>
        match f a (h ++ t) i' with
        | mkRun r' t' i'' => mkRun r' (t ++ t') i''
        end
    | mkRun (Raise e) t i' => mkRun (Raise e) t i'
    end.

(** [try: m  except Exception as e: handler e]. *)
Definition try_ {A} (m : M A) (handler : exn -> M A) : M A :=
  fun h i =>
    match m h i with
    | mkRun (Ret a) t i' => mkRun (Ret a) t i'
    | mkRun (Raise e) t i' =>
        match handler e (h ++ t) i' with
        | mkRun r' t' i'' => mkRun r' (t ++ t') i''
        end
    end.

Declare Scope io_scope.
Delimit Scope io_scope with io.
Notation "x <- m ;; k" := (bind m (fun x => k))
  (at level 61, m at next level, right associativity) : io_scope.
Notation "m ;; k" := (bind m (fun _ => k))
  (at level 61, right associativity) : io_scope.
Notation "'let?' x := m 'in' k" := (rbind m (fun x => k))
  (at level 10, x name, m at level 100, k at level 200).
Open Scope io_scope.

Definition emit (e : event) : M unit := fun _ i => mkRun (Ret tt) [e] i.

Definition print (text : fmt) : M unit := emit (Print text).

Definition logger_info (text : fmt) : M unit := emit (Log INFO text).
Definition logger_error (text : fmt) : M unit := emit (Log ERROR text).

(** [input(prompt)]: the next line, or [EOFError] when none is left. *)
Definition input (prompt : fmt) : M string :=
  fun _ i =>
    match i with
    | [] => mkRun (Raise EOFError) [Input prompt None] []
    | l :: r => mkRun (Ret l) [Input prompt (Some l)] r
    end.

Definition nl : string := String (ascii_of_nat 10) EmptyString.

(** The submit calls among the events, with their parameters. *)
Fixpoint submits (t : list event) : list (list (string * pyval)) :=
  match t with
  | [] => []
  | Call (futures_create_order ps) _ :: r => ps :: submits r
  | _ :: r => submits r
  end.

(** The calls to the exchange client among the events. *)
Fixpoint calls (t : list event) : list call :=
  match t with
  | [] => []
  | Call c _ :: r => c :: calls r
  | _ :: r => calls r
  end.

(* ===================================================================== *)
(** * class TradingBot *)
(* ===================================================================== *)

(** Modelled from the spec: the constants [Client.ORDER_TYPE_MARKET],
    [Client.ORDER_TYPE_LIMIT] and [Client.TIME_IN_FORCE_GTC] of the
    exchange client library, which is not part of the repository; the
    wire formats of section 4.2 give their values. *)
Definition ORDER_TYPE_MARKET : string := "MARKET".
Definition ORDER_TYPE_LIMIT : string := "LIMIT".
Definition TIME_IN_FORCE_GTC : string := "GTC".

(** Keyword arguments of the three submit calls. *)
Definition market_params (symbol side : string) (quantity : float)
  : list (string * pyval) :=
  [ ("symbol", VStr (upper symbol));
    ("side", VStr (upper side));
    ("type", VStr ORDER_TYPE_MARKET);
    ("quantity", VFloat quantity) ].

Definition limit_params (symbol side : string) (quantity price : float)
  : list (string * pyval) :=
  [ ("symbol", VStr (upper symbol));
    ("side", VStr (upper side));
    ("type", VStr ORDER_TYPE_LIMIT);
    ("quantity", VFloat quantity);
    ("price", VFloat price);
    ("timeInForce", VStr TIME_IN_FORCE_GTC) ].

Definition stop_limit_params (symbol side : string)
  (quantity stop_price limit_price : float) : list (string * pyval) :=
  [ ("symbol", VStr (upper symbol));
    ("side", VStr (upper side));
    ("type", VStr "STOP");
    ("quantity", VFloat quantity);
    ("stopPrice", VFloat stop_price);
    ("price", VFloat limit_price);
    ("timeInForce", VStr "GTC") ].

Section Bot.

Variable P : platform.

(** A call of the exchange client: the exchange answers from what has
    happened so far. *)
Definition client (c : call) : M pyval :=
  fun h i => let r := exchange P h c in mkRun r [Call c r] i.

(** [setup_logging]: the handlers are installed; what is logged later
    shows as [Log] events. *)
Definition setup_logging : M unit := ret tt.

Definition test_connection : M bool :=
  try_
    (account_info <- client futures_account ;;
     logger_info [Txt "Successfully connected to Binance Futures Testnet"] ;;
     bal <- lift (get account_info "totalWalletBalance" (VStr "N/A")) ;;
     logger_info [Txt "Account Balance: "; Val bal; Txt " USDT"] ;;
     ret true)
    (fun e =>
       logger_error [Txt "Failed to connect to Binance API: "; Err e] ;;
       ret false).

(** [TradingBot.__init__]. *)
Definition TradingBot (api_key api_secret : string) (testnet : bool)
  : M unit :=
  _ <- client (Client_init api_key api_secret testnet) ;;
  setup_logging ;;
  _ <- test_connection ;;
  ret tt.

Definition get_account_info : M pyval :=
  try_
    (account_info <- client futures_account ;;
     logger_info [Txt "Account information retrieved successfully"] ;;
     ret account_info)
    (fun e =>
       match e with
       | BinanceAPIException _ _ =>
           logger_error [Txt "API Error getting account info: "; Err e] ;;
           raise e
       | _ =>
           logger_error
             [Txt "Unexpected error getting account info: "; Err e] ;;
           raise e
       end).

(** The loop of [get_symbol_info]: the first entry whose ['symbol'] is
    the wanted one. *)
Fixpoint find_symbol (items : list pyval) (wanted : string)
  : res (option pyval) :=
  match items with
  | [] => Ret None
  | s :: r =>
      let? name := getitem s "symbol" in
      if eq_str name wanted then Ret (Some s) else find_symbol r wanted
  end.

Definition get_symbol_info (symbol : string) : M pyval :=
  try_
    (exchange_info <- client futures_exchange_info ;;
     syms <- lift (getitem exchange_info "symbols") ;;
     items <- lift (iter syms) ;;
     symbol_info <- lift (find_symbol items (upper symbol)) ;;
     match symbol_info with
     | Some s =>
         if negb (truthy s) then
           raise (ValueError ("Symbol " ++ symbol ++ " not found")%string)
         else
           status <- lift (getitem s "status") ;;
           if ne_str status "TRADING" then
             raise (ValueError
               ("Symbol " ++ symbol ++ " is not available for trading")%string)
           else
             logger_info [Txt "Symbol "; Txt symbol;
                          Txt " is valid and available for trading"] ;;
             ret s
     | None =>
         raise (ValueError ("Symbol " ++ symbol ++ " not found")%string)
     end)
    (fun e =>
       match e with
       | BinanceAPIException _ _ =>
           logger_error [Txt "API Error getting symbol info: "; Err e] ;;
           raise e
       | _ =>
           logger_error [Txt "Error validating symbol: "; Err e] ;;
           raise e
       end).

Definition get_current_price (symbol : string) : M float :=
  try_
    (ticker <- client (futures_symbol_ticker (upper symbol)) ;;
     p <- lift (getitem ticker "price") ;;
     price <- lift (float_of p) ;;
     logger_info [Txt "Current price for "; Txt symbol; Txt ": "; Flt price] ;;
     ret price)
    (fun e =>
       logger_error [Txt "Error getting current price for "; Txt symbol;
                     Txt ": "; Err e] ;;
       raise e).

(** The three [except] clauses that close each order sender. *)
Definition order_handler (unexpected : string) (e : exn) : M pyval :=
  match e with
  | BinanceOrderException _ _ =>
      logger_error [Txt "Order Error: "; Err e] ;; raise e
  | BinanceAPIException _ _ =>
      logger_error [Txt "API Error: "; Err e] ;; raise e
  | _ =>
      logger_error [Txt unexpected; Err e] ;; raise e
  end.

(** The lines that follow each submit call. *)
Definition log_order (placed : string) (order : pyval) : M pyval :=
  logger_info [Txt placed] ;;
  oid <- lift (getitem order "orderId") ;;
  logger_info [Txt "Order ID: "; Val oid] ;;
  st <- lift (getitem order "status") ;;
  logger_info [Txt "Status: "; Val st] ;;
  ret order.

Definition place_market_order (symbol side : string) (quantity : float)
  : M pyval :=
  try_
    (logger_info [Txt "Placing MARKET "; Txt side; Txt " order: ";
                  Flt quantity; Txt " "; Txt symbol] ;;
     order <- client (futures_create_order
                        (market_params symbol side quantity)) ;;
     log_order "Market order placed successfully!" order)
    (order_handler " Unexpected error placing market order: ").

Definition place_limit_order (symbol side : string) (quantity price : float)
  : M pyval :=
  try_
    (logger_info [Txt "Placing LIMIT "; Txt side; Txt " order: ";
                  Flt quantity; Txt " "; Txt symbol; Txt " at "; Flt price] ;;
     order <- client (futures_create_order
                        (limit_params symbol side quantity price)) ;;
     log_order "Limit order placed successfully!" order)
    (order_handler "Unexpected error placing limit order: ").

Definition place_stop_limit_order (symbol side : string)
  (quantity stop_price limit_price : float) : M pyval :=
  try_
    (logger_info [Txt "Placing STOP_LIMIT "; Txt side; Txt " order: ";
                  Flt quantity; Txt " "; Txt symbol] ;;
     logger_info [Txt "Stop Price: "; Flt stop_price;
                  Txt ", Limit Price: "; Flt limit_price] ;;
     order <- client (futures_create_order
                        (stop_limit_params symbol side quantity
                           stop_price limit_price)) ;;
     log_order "Stop-limit order placed successfully!" order)
    (order_handler "Unexpected error placing stop-limit order: ").

Definition get_open_orders (symbol : option string) : M pyval :=
  try_
    (orders <-
       match symbol with
       | Some s =>
           if str_truthy s then client (futures_get_open_orders (Some (upper s)))
           else client (futures_get_open_orders None)
       | None => client (futures_get_open_orders None)
       end ;;
     n <- lift (len orders) ;;
     logger_info [Txt "📋 Found "; Num n; Txt " open orders"] ;;
     ret orders)
    (fun e =>
       logger_error [Txt "Error getting open orders: "; Err e] ;;
       raise e).

(** One line [print(f"<label>{order.get(key, 'N/A')}")]. *)
Definition print_field (label key : string) (order : pyval) : M unit :=
  v <- lift (get order key (VStr "N/A")) ;;
  print [Txt label; Val v].

Definition display_order_details (order : pyval) : M unit :=
  print [Txt (nl ++ times "=" 50)%string] ;;
  print [Txt "ORDER DETAILS"] ;;
  print [Txt (times "=" 50)] ;;
  print_field "Order ID: " "orderId" order ;;
  print_field "Symbol: " "symbol" order ;;
  print_field "Side: " "side" order ;;
  print_field "Type: " "type" order ;;
  print_field "Quantity: " "origQty" order ;;
  print_field "Price: " "price" order ;;
  print_field "Status: " "status" order ;;
  t <- lift (get order "time" (VInt 0)) ;;
  shown <- lift (fromtimestamp_ms P t) ;;
  print [Txt "Time: "; Txt shown] ;;
  has_stop <- lift (contains "stopPrice" order) ;;
  (if has_stop then
     sp <- lift (getitem order "stopPrice") ;;
     if ne_str sp "0" then
       sp' <- lift (getitem order "stopPrice") ;;
       print [Txt "Stop Price: "; Val sp']
     else ret tt
   else ret tt) ;;
  print [Txt (times "=" 50)].

End Bot.

(* ===================================================================== *)
(** * class TradingBotCLI *)
(* ===================================================================== *)

(** The three kinds of order. *)
Inductive OrderType : Type := MARKET | LIMIT | STOP_LIMIT.

(** [validate_inputs]: the inner [try] turns every [ValueError] of its
    body, the one raised for a quantity that is not positive included,
    into the format error. *)
Definition validate_inputs (symbol side quantity : string)
  : res (string * string * float) :=
  if negb (str_truthy symbol) then Raise (ValueError "Symbol is required")
  else if negb (String.eqb (upper side) "BUY" || String.eqb (upper side) "SELL")
  then Raise (ValueError "Side must be 'BUY' or 'SELL'")
  else
    let body :=
      let? qty := float_of_str quantity in
      if fle qty fzero then Raise (ValueError "Quantity must be positive")
      else Ret qty in
    let? qty :=
      match body with
      | Raise (ValueError _) => Raise (ValueError "Invalid quantity format")
      | other => other
      end in
    Ret (upper symbol, upper side, qty).

(** The price block of [limit_order_menu]. *)
Definition parse_limit_price (price : string) : res float :=
  let body :=
    let? limit_price := float_of_str price in
    if fle limit_price fzero then Raise (ValueError "Price must be positive")
    else Ret limit_price in
  match body with
  | Raise (ValueError _) => Raise (ValueError "Invalid price format")
  | other => other
  end.

(** The price block of [stop_limit_order_menu]. *)
Definition parse_stop_limit_prices (stop_price limit_price : string)
  : res (float * float) :=
  let body :=
    let? stop_px := float_of_str stop_price in
    let? limit_px := float_of_str limit_price in
    if fle stop_px fzero || fle limit_px fzero
    then Raise (ValueError "Prices must be positive")
    else Ret (stop_px, limit_px) in
  match body with
  | Raise (ValueError _) => Raise (ValueError "Invalid price format")
  | other => other
  end.

Section CLI.

Variable P : platform.

(** [setup_bot]; the prompts are outside any [try]. *)
Definition setup_bot : M bool :=
  print [Txt "Binance Futures Trading Bot Setup"] ;;
  print [Txt "====================================="] ;;
  k <- input [Txt "Enter your Binance API Key: "] ;;
  let api_key := strip k in
  s <- input [Txt "Enter your Binance API Secret: "] ;;
  let api_secret := strip s in
  if negb (str_truthy api_key) || negb (str_truthy api_secret) then
    print [Txt "API credentials are required!"] ;;
    ret false
  else
    try_
      (TradingBot P api_key api_secret true ;;
       ret true)
      (fun e =>
         print [Txt "Failed to initialize bot: "; Err e] ;;
         ret false).

(** The handler that closes every menu. *)
Definition report (e : exn) : M unit := print [Txt "Error: "; Err e].

Definition market_order_menu : M unit :=
  print [Txt (nl ++ "MARKET ORDER")%string] ;;
  print [Txt "================"] ;;
  try_
    (symbol_ <- input [Txt "Enter symbol (e.g., BTCUSDT): "] ;;
     let symbol := strip symbol_ in
     side_ <- input [Txt "Enter side (BUY/SELL): "] ;;
     let side := strip side_ in
     quantity_ <- input [Txt "Enter quantity: "] ;;
     let quantity := strip quantity_ in
     v <- lift (validate_inputs symbol side quantity) ;;
     let '(symbol, side, qty) := v in
     current_price <- get_current_price P symbol ;;
     print [Txt "Current price: "; Flt current_price] ;;
     c <- input [Txt "Confirm "; Txt side; Txt " "; Flt qty; Txt " ";
                 Txt symbol; Txt " at market price? (y/N): "] ;;
     let confirm := lower (strip c) in
     if String.eqb confirm "y" then
       order <- place_market_order P symbol side qty ;;
       display_order_details P order
     else
       print [Txt "Order cancelled."])
    report.

Definition limit_order_menu : M unit :=
  print [Txt (nl ++ "📊 LIMIT ORDER")%string] ;;
  print [Txt "==============="] ;;
  try_
    (symbol_ <- input [Txt "Enter symbol (e.g., BTCUSDT): "] ;;
     let symbol := strip symbol_ in
     side_ <- input [Txt "Enter side (BUY/SELL): "] ;;
     let side := strip side_ in
     quantity_ <- input [Txt "Enter quantity: "] ;;
     let quantity := strip quantity_ in
     price_ <- input [Txt "Enter limit price: "] ;;
     let price := strip price_ in
     v <- lift (validate_inputs symbol side quantity) ;;
     let '(symbol, side, qty) := v in
     limit_price <- lift (parse_limit_price price) ;;
     current_price <- get_current_price P symbol ;;
     print [Txt "Current price: "; Flt current_price] ;;
     c <- input [Txt "Confirm "; Txt side; Txt " "; Flt qty; Txt " ";
                 Txt symbol; Txt " at "; Flt limit_price; Txt "? (y/N): "] ;;
     let confirm := lower (strip c) in
     if String.eqb confirm "y" then
       order <- place_limit_order P symbol side qty limit_price ;;
       display_order_details P order
     else
       print [Txt "Order cancelled."])
    report.

Definition stop_limit_order_menu : M unit :=
  print [Txt (nl ++ "STOP-LIMIT ORDER")%string] ;;
  print [Txt "==================="] ;;
  try_
    (symbol_ <- input [Txt "Enter symbol (e.g., BTCUSDT): "] ;;
     let symbol := strip symbol_ in
     side_ <- input [Txt "Enter side (BUY/SELL): "] ;;
     let side := strip side_ in
     quantity_ <- input [Txt "Enter quantity: "] ;;
     let quantity := strip quantity_ in
     stop_price_ <- input [Txt "Enter stop price: "] ;;
     let stop_price := strip stop_price_ in
     limit_price_ <- input [Txt "Enter limit price: "] ;;
     let limit_price := strip limit_price_ in
     v <- lift (validate_inputs symbol side quantity) ;;
     let '(symbol, side, qty) := v in
     px <- lift (parse_stop_limit_prices stop_price limit_price) ;;
     let '(stop_px, limit_px) := px in
     current_price <- get_current_price P symbol ;;
     print [Txt "Current price: "; Flt current_price] ;;
     c <- input [Txt "Confirm "; Txt side; Txt " "; Flt qty; Txt " ";
                 Txt symbol; Txt " (Stop: "; Flt stop_px; Txt ", Limit: ";
                 Flt limit_px; Txt ")? (y/N): "] ;;
     let confirm := lower (strip c) in
     if String.eqb confirm "y" then
       order <- place_stop_limit_order P symbol side qty stop_px limit_px ;;
       display_order_details P order
     else
       print [Txt "Order cancelled."])
    report.

(** The list comprehension of [view_account_menu]: the positions whose
    amount is not zero. *)
Fixpoint open_positions (items : list pyval) : res (list pyval) :=
  match items with
  | [] => Ret []
  | pos :: r =>
      let? a := getitem pos "positionAmt" in
      let? amt := float_of a in
      let? r' := open_positions r in
      Ret (if fne amt fzero then pos :: r' else r')
  end.

Fixpoint print_positions (positions : list pyval) : M unit :=
  match positions with
  | [] => ret tt
  | pos :: r =>
      sym <- lift (getitem pos "symbol") ;;
      amt <- lift (getitem pos "positionAmt") ;;
      pnl <- lift (getitem pos "unrealizedProfit") ;;
      print [Txt "  "; Val sym; Txt ": "; Val amt; Txt " (PnL: "; Val pnl;
             Txt " USDT)"] ;;
      print_positions r
  end.

Definition view_account_menu : M unit :=
  try_
    (account_info <- get_account_info P ;;
     print [Txt (nl ++ "💰 ACCOUNT INFORMATION")%string] ;;
     print [Txt "======================"] ;;
     w <- lift (get account_info "totalWalletBalance" (VStr "N/A")) ;;
     print [Txt "Total Wallet Balance: "; Val w; Txt " USDT"] ;;
     a <- lift (get account_info "availableBalance" (VStr "N/A")) ;;
     print [Txt "Available Balance: "; Val a; Txt " USDT"] ;;
     u <- lift (get account_info "totalUnrealizedProfit" (VStr "N/A")) ;;
     print [Txt "Total Unrealized PnL: "; Val u; Txt " USDT"] ;;
     ps <- lift (get account_info "positions" (VList [])) ;;
     items <- lift (iter ps) ;;
     positions <- lift (open_positions items) ;;
     match positions with
     | [] => ret tt
     | _ =>
         print [Txt (nl ++ "Open Positions: ")%string;
                Num (List.length positions)] ;;
         print_positions positions
     end)
    (fun e => print [Txt "Error getting account info: "; Err e]).

Fixpoint print_orders (orders : list pyval) : M unit :=
  match orders with
  | [] => ret tt
  | order :: r =>
      oid <- lift (getitem order "orderId") ;;
      sym <- lift (getitem order "symbol") ;;
      sd <- lift (getitem order "side") ;;
      ty <- lift (getitem order "type") ;;
      print [Txt "ID: "; Val oid; Txt " | "; Val sym; Txt " | "; Val sd;
             Txt " | "; Val ty] ;;
      q <- lift (getitem order "origQty") ;;
      pr <- lift (getitem order "price") ;;
      st <- lift (getitem order "status") ;;
      print [Txt "Qty: "; Val q; Txt " | Price: "; Val pr;
             Txt " | Status: "; Val st] ;;
      print [Txt (times "-" 60)] ;;
      print_orders r
  end.

Definition view_orders_menu : M unit :=
  try_
    (orders <- get_open_orders P None ;;
     if negb (truthy orders) then
       print [Txt (nl ++ "No open orders found.")%string]
     else
       n <- lift (len orders) ;;
       print [Txt (nl ++ "OPEN ORDERS (")%string; Num n; Txt ")"] ;;
       print [Txt (times "=" 60)] ;;
       items <- lift (iter orders) ;;
       print_orders items)
    (fun e => print [Txt "Error getting orders: "; Err e]).

Definition print_menu : M unit :=
  print [Txt (nl ++ "BINANCE FUTURES TRADING BOT")%string] ;;
  print [Txt "==============================="] ;;
  print [Txt "1. Place Market Order"] ;;
  print [Txt "2. Place Limit Order"] ;;
  print [Txt "3. Place Stop-Limit Order"] ;;
  print [Txt "4. View Account Info"] ;;
  print [Txt "5. View Open Orders"] ;;
  print [Txt "6. Exit"] ;;
  print [Txt "==============================="].

(** The [while True] loop of [main_menu], unrolled at most [fuel] times;
    [None] when the loop is still running after that many rounds. *)
Fixpoint menu_loop (fuel : nat) : M (option unit) :=
  match fuel with
  | O => ret None
  | S n =>
      print_menu ;;
      c <- input [Txt "Select an option (1-6): "] ;;
      let choice := strip c in
      if String.eqb choice "1" then market_order_menu ;; menu_loop n
      else if String.eqb choice "2" then limit_order_menu ;; menu_loop n
      else if String.eqb choice "3" then stop_limit_order_menu ;; menu_loop n
      else if String.eqb choice "4" then view_account_menu ;; menu_loop n
      else if String.eqb choice "5" then view_orders_menu ;; menu_loop n
      else if String.eqb choice "6" then
        print [Txt "Goodbye!"] ;; ret (Some tt)
      else
        print [Txt "Invalid option. Please try again."] ;; menu_loop n
  end.

Definition main_menu (fuel : nat) : M (option unit) :=
  ok <- setup_bot ;;
  if negb ok then ret (Some tt) else menu_loop fuel.

(** The interactive workflow of an order type (choices 1, 2 and 3 of the
    main menu). *)
Definition order_menu (ty : OrderType) : M unit :=
  match ty with
  | MARKET => market_order_menu
  | LIMIT => limit_order_menu
  | STOP_LIMIT => stop_limit_order_menu
  end.

End CLI.

(* ===================================================================== *)
(** * main *)
(* ===================================================================== *)

Inductive Side : Type := BUY | SELL.

Definition side_str (s : Side) : string :=
  match s with BUY => "BUY" | SELL => "SELL" end.

Definition side_is (s t : Side) : bool :=
  match s, t with BUY, BUY | SELL, SELL => true | _, _ => false end.

(** What [parse_args] returns: the six flags, each absent or holding a
    value of its declared type and choices. *)
Record Namespace : Type := {
  symbol : option string;
  side : option Side;
  type : option OrderType;
  quantity : option float;
  price : option float;
  stop_price : option float
}.

(** Reading an attribute the parser never defined. *)
Definition no_attribute (name : string) : res string :=
  Raise (AttributeError
           ("'Namespace' object has no attribute '" ++ name ++ "'")%string).

(** [not x] for an optional float flag: absent, or zero. *)
Definition flag_missing (x : option float) : bool :=
  match x with Some f => negb (float_truthy f) | None => true end.

Definition env_truthy (x : option string) : bool :=
  match x with Some s => str_truthy s | None => false end.

(** The test [all([api_key, api_secret, args.symbol, args.side, args.type,
    args.quantity])]: when it holds, the four flag values. *)
Definition batch_gate (api_key api_secret : option string) (args : Namespace)
  : option (string * Side * OrderType * float) :=
  if env_truthy api_key && env_truthy api_secret then
    match symbol args, side args, type args, quantity args with
    | Some sym, Some sd, Some ty, Some q =>
        if str_truthy sym && float_truthy q then Some (sym, sd, ty, q)
        else None
    | _, _, _, _ => None
    end
  else None.

Section Main.

Variable P : platform.

(** The body of the batch branch once the bot exists: the order type
    decides the sender; a [return] of the source ends the run. *)
Definition batch_order (args : Namespace) (sym : string) (sd : Side)
  (ty : OrderType) (q : float) : M unit :=
  match ty with
  | MARKET =>
      order <- place_market_order P sym (side_str sd) q ;;
      display_order_details P order
  | LIMIT =>
      if flag_missing (price args) then
        print [Txt "Price is required for limit orders"]
      else
        match price args with
        | Some pr =>
            order <- place_limit_order P sym (side_str sd) q pr ;;
            display_order_details P order
        | None => ret tt
        end
  | STOP_LIMIT =>
      if flag_missing (price args) || flag_missing (stop_price args) then
        print [Txt "Both price and stop-price are required for stop-limit orders"]
      else
        match price args, stop_price args with
        | Some pr, Some sp =>
            ticker <- client P (futures_symbol_ticker (upper sym)) ;;
            p <- lift (getitem ticker "price") ;;
            current_price <- lift (float_of p) ;;
            print [Txt "Current price: "; Flt current_price] ;;
            if side_is sd BUY && fle sp current_price then
              print [Txt "Stop price must be ABOVE current price for a BUY stop-limit order"]
            else if side_is sd SELL && fge sp current_price then
              print [Txt "Stop price must be BELOW current price for a SELL stop-limit order"]
            else
              order <- place_stop_limit_order P sym (side_str sd) q sp pr ;;
              display_order_details P order
        | _, _ => ret tt
        end
  end.

(** [main]: [api_key] and [api_secret] are the two environment values;
    the batch branch builds its bot from [args.api_key] and
    [args.api_secret], attributes the parser does not define. *)
Definition main (api_key api_secret : option string) (args : Namespace)
  (fuel : nat) : M (option unit) :=
  match batch_gate api_key api_secret args with
  | Some (sym, sd, ty, q) =>
      try_
        (k <- lift (no_attribute "api_key") ;;
         s <- lift (no_attribute "api_secret") ;;
         TradingBot P k s true ;;
         batch_order args sym sd ty q)
        (report) ;;
      ret (Some tt)
  | None => main_menu P fuel
  end.

End Main.

(* ===================================================================== *)
(** * Reading traces *)
(* ===================================================================== *)

(** The parameters of the submit calls among some calls. *)
Fixpoint submitted (cs : list call) : list (list (string * pyval)) :=
  match cs with
  | [] => []
  | futures_create_order ps :: r => ps :: submitted r
  | _ :: r => submitted r
  end.

(** The operator's answers at the confirmation prompts, in order. *)
Fixpoint answers (t : list event) : list string :=
  match t with
  | [] => []
  | Input (Txt p :: _) (Some line) :: r =>
      if String.eqb p "Confirm " then line :: answers r else answers r
  | _ :: r => answers r
  end.

(** An answer confirms when, stripped and lowered, it is [y]. *)
Definition says_yes (line : string) : bool :=
  String.eqb (lower (strip line)) "y".


Definition declined (t : list event) : bool :=
  existsb (fun l => negb (says_yes l)) (answers t).

(** The last event. *)
Definition final (t : list event) : option event :=
  fold_left (fun _ e => Some e) t None.

(** The footprint of an operation that neither prompts nor leaves input
    unread: its calls are [cs]. *)
Definition footprint {A} (r : run A) (i : list string) (cs : list call)
  : Prop :=
  calls (events r) = cs /\ answers (events r) = [] /\ rest r = i.

(** The three ways an interactive order workflow can go: it stops before
    the confirmation prompt (missing input, failed validation or failed
    price lookup); the operator declines; the operator confirms and the
    order is sent. *)
Inductive workflow (t : list event) : Prop :=
| Stopped (s : string) :
    answers t = [] ->
    calls t = [] \/ calls t = [futures_symbol_ticker s] ->
    workflow t
| Declined (a s : string) :
    answers t = [a] ->
    says_yes a = false ->
    calls t = [futures_symbol_ticker s] ->
    final t = Some (Print [Txt "Order cancelled."]) ->
    workflow t
| Sent (a s : string) (ps : list (string * pyval)) :
    answers t = [a] ->
    says_yes a = true ->
    calls t = [futures_symbol_ticker s; futures_create_order ps] ->
    workflow t.

(** A piece of program that never gives input lines back: it leaves at
    most the lines it was given. *)
Definition consumes {A} (m : M A) : Prop :=
  forall h i, List.length (rest (m h i)) <= List.length i.

(** The exchange's answers to the submit calls among the events. *)
Fixpoint submit_results (t : list event) : list (res pyval) :=
  match t with
  | [] => []
  | Call (futures_create_order _) r :: rest => r :: submit_results rest
  | _ :: rest => submit_results rest
  end.

(** What a sender makes of the exchange's answer to its submit call: an
    exception goes on unchanged; an order is returned once its
    ['orderId'] and ['status'] have been read for the log. *)
Definition sender_result (ans : res pyval) : res pyval :=
  let? order := ans in
  let? _ := getitem order "orderId" in
  let? _ := getitem order "status" in
  Ret order.

(** The error lines among the events of the log. *)
Fixpoint error_logs (t : list event) : list fmt :=
  match t with
  | [] => []
  | Log ERROR text :: rest => text :: error_logs rest
  | _ :: rest => error_logs rest
  end.

(** The lines printed among the events. *)
Fixpoint printed (t : list event) : list fmt :=
  match t with
  | [] => []
  | Print text :: rest => text :: printed rest
  | _ :: rest => printed rest
  end.

(** The test of the list comprehension of [view_account_menu] on a
    position whose amount can be read. *)
Definition position_open (pos : pyval) : bool :=
  match getitem pos "positionAmt" with
  | Ret a => match float_of a with Ret amt => fne amt fzero | Raise _ => false end
  | Raise _ => false
  end.

(** A position whose amount can be read as a float. *)
Definition position_readable (pos : pyval) : bool :=
  match getitem pos "positionAmt" with
  | Ret a => match float_of a with Ret _ => true | Raise _ => false end
  | Raise _ => false
  end.

(** The calls among the events, each with the exchange's answer. *)
Fixpoint answered (t : list event) : list (call * res pyval) :=
  match t with
  | [] => []
  | Call c r :: rest => (c, r) :: answered rest
  | _ :: rest => answered rest
  end.

(** A piece of program that neither calls the exchange nor reads input. *)
Definition quiet {A} (m : M A) : Prop :=
  forall h i, calls (events (m h i)) = [] /\ rest (m h i) = i.

(** An open order whose seven listed fields are all present. *)
Definition order_listable (order : pyval) : bool :=
  forallb (fun k => match getitem order k with Ret _ => true | Raise _ => false end)
    ["orderId"; "symbol"; "side"; "type"; "origQty"; "price"; "status"].

(** The prompts shown among the events, answered or not. *)
Fixpoint prompts (t : list event) : list fmt :=
  match t with
  | [] => []
  | Input prompt _ :: rest => prompt :: prompts rest
  | _ :: rest => prompts rest
  end.

(** A piece of program that shows no prompt and reads no input. *)
Definition silent {A} (m : M A) : Prop :=
  forall h i, prompts (events (m h i)) = [] /\ rest (m h i) = i.

(** The number of lines an interactive order workflow asks for, the
    confirmation included. *)
Definition menu_lines (ty : OrderType) : nat :=
  match ty with MARKET => 4 | LIMIT => 5 | STOP_LIMIT => 6 end.

(** The order the typed lines describe: the validator and the price
    block of the order type applied to the stripped lines, then the
    keyword arguments of the sender.  No exchange is involved. *)
Definition entered_params (ty : OrderType) (lines : list string)
  : res (list (string * pyval)) :=
  match ty, lines with
  | MARKET, symbol :: side :: quantity :: _ =>
      let? v := validate_inputs (strip symbol) (strip side) (strip quantity) in
      let '(s, d, qty) := v in
      Ret (market_params s d qty)
  | LIMIT, symbol :: side :: quantity :: price :: _ =>
      let? v := validate_inputs (strip symbol) (strip side) (strip quantity) in
      let '(s, d, qty) := v in
      let? limit_price := parse_limit_price (strip price) in
      Ret (limit_params s d qty limit_price)
  | STOP_LIMIT, symbol :: side :: quantity :: stop :: limit :: _ =>
      let? v := validate_inputs (strip symbol) (strip side) (strip quantity) in
      let '(s, d, qty) := v in
      let? px := parse_stop_limit_prices (strip stop) (strip limit) in
      let '(stop_px, limit_px) := px in
      Ret (stop_limit_params s d qty stop_px limit_px)
  | _, _ => Raise EOFError
  end.

(* ===================================================================== *)
(** * A concrete exchange for the scenarios *)
(* ===================================================================== *)

Module Scenario.

(** The symbols the exchange lists: one that trades, one that is halted. *)
Definition listing : pyval :=
  VDict [("symbols",
          VList [ VDict [("symbol", VStr "BTCUSDT"); ("status", VStr "TRADING")];
                  VDict [("symbol", VStr "ETHUSDT"); ("status", VStr "BREAK")] ])].

Definition listed (symbol : string) : bool :=
  String.eqb symbol "BTCUSDT" || String.eqb symbol "ETHUSDT".

(** An exchange whose last price is [price] for every listed symbol and
    which, when [reject] is set, refuses every order for lack of margin;
    otherwise it acknowledges the order. *)
Definition answer (price : string) (reject : bool) (c : call) : res pyval :=
  match c with
  | Client_init _ _ _ => Ret VNone
  | futures_account =>
      Ret (VDict [("totalWalletBalance", VStr "15000.00");
                  ("availableBalance", VStr "15000.00");
                  ("positions", VList [])])
  | futures_exchange_info => Ret listing
  | futures_symbol_ticker s =>
      if listed s then Ret (VDict [("symbol", VStr s); ("price", VStr price)])
      else Raise (BinanceAPIException (-1121) "Invalid symbol.")
  | futures_create_order ps =>
      if reject then
        Raise (BinanceAPIException (-2019) "Margin is insufficient.")
      else
        Ret (VDict (("orderId", VInt 1) :: ("status", VStr "NEW")
                    :: ("time", VInt 1700000000000) :: ps))
  | futures_get_open_orders _ => Ret (VList [])
  end.

Definition exchange_at (price : string) (reject : bool) : platform :=
  {| exchange := fun _ c => answer price reject c;
     fromtimestamp_ms := fun _ => Ret "2023-11-14 22:13:20" |}.

(** The value of a decimal literal. *)
Definition num (m : N) (e : Z) : float := dec_to_float false m e.

(** The flags of an order for BTCUSDT. *)
Definition flags (sd : Side) (ty : OrderType) (q : float)
  (pr sp : option float) : Namespace :=
  {| symbol := Some "BTCUSDT"; side := Some sd; type := Some ty;
     quantity := Some q; price := pr; stop_price := sp |}.

(** No flag given on the command line. *)
Definition no_flags : Namespace :=
  {| symbol := None; side := None; type := None;
     quantity := None; price := None; stop_price := None |}.

End Scenario.

(* ===================================================================== *)
(** * Facts about traces *)
(* ===================================================================== *)

Lemma submitted_app (a b : list call) :
  submitted (a ++ b) = submitted a ++ submitted b.
Proof.
  induction a as [|c a IH]; simpl; [reflexivity|].
  destruct c; simpl; rewrite IH; reflexivity.
Qed.

Lemma calls_app (a b : list event) : calls (a ++ b) = calls a ++ calls b.
Proof.
  induction a as [|e a IH]; simpl; [reflexivity|].
  destruct e; simpl; rewrite IH; reflexivity.
Qed.

Lemma submits_calls (t : list event) : submits t = submitted (calls t).
Proof.
  induction t as [|e t IH]; simpl; [reflexivity|].
  destruct e as [| | |c r]; simpl; auto.
  destruct c; simpl; rewrite IH; reflexivity.
Qed.

Lemma submits_app (a b : list event) :
  submits (a ++ b) = submits a ++ submits b.
Proof. rewrite !submits_calls, calls_app, submitted_app. reflexivity. Qed.

Lemma answers_app (a b : list event) :
  answers (a ++ b) = answers a ++ answers b.
Proof.
  induction a as [|e a IH]; simpl; [reflexivity|].
  destruct e as [p l| | |]; simpl; auto.
  destruct p as [|[q| | | |] p]; simpl; auto.
  destruct l; simpl; auto.
  destruct (String.eqb q "Confirm "); simpl; rewrite IH; reflexivity.
Qed.

Lemma final_app (a b : list event) :
  final (a ++ b) = fold_left (fun _ e => Some e) b (final a).
Proof. unfold final. apply fold_left_app. Qed.

(* ===================================================================== *)
(** * What each operation of TradingBot does to the trace *)
(* ===================================================================== *)

Arguments getitem : simpl never.
Arguments get : simpl never.
Arguments contains : simpl never.
Arguments float_of : simpl never.
Arguments float_of_str : simpl never.
Arguments len : simpl never.
Arguments iter : simpl never.
Arguments strip : simpl never.
Arguments upper : simpl never.
Arguments lower : simpl never.
Arguments ne_str : simpl never.
Arguments times : simpl never.

(** Unfolds the combinators of [M]. *)
Ltac unfold_io :=
  unfold bind, try_, lift, ret, raise, print, logger_info, logger_error,
    emit, client, setup_logging.

(** Case analysis on whatever blocks the evaluation of a run. *)
Ltac break_match :=
  match goal with
  | |- context [match ?x with _ => _ end] =>
      lazymatch x with
      | context [match _ with _ => _ end] => fail
      | _ => destruct x eqn:?
      end
  end.

Ltac run_cases := unfold_io; simpl; repeat (break_match; simpl); auto.


Section BotFacts.

Variable P : platform.

Lemma get_current_price_footprint symbol h i :
  footprint (get_current_price P symbol h i) i
    [futures_symbol_ticker (upper symbol)].
Proof. unfold footprint, get_current_price. run_cases. Qed.

Lemma order_handler_footprint msg e h i :
  footprint (order_handler msg e h i) i [] /\
  result (order_handler msg e h i) = Raise e.
Proof. unfold footprint, order_handler. run_cases. Qed.

Lemma log_order_footprint msg order h i :
  footprint (log_order msg order h i) i [].
Proof. unfold footprint, log_order. run_cases. Qed.

Lemma place_market_order_footprint symbol side q h i :
  footprint (place_market_order P symbol side q h i) i
    [futures_create_order (market_params symbol side q)].
Proof.
  unfold footprint, place_market_order, log_order, order_handler. run_cases.
Qed.

Lemma place_limit_order_footprint symbol side q pr h i :
  footprint (place_limit_order P symbol side q pr h i) i
    [futures_create_order (limit_params symbol side q pr)].
Proof.
  unfold footprint, place_limit_order, log_order, order_handler. run_cases.
Qed.

Lemma place_stop_limit_order_footprint symbol side q sp lp h i :
  footprint (place_stop_limit_order P symbol side q sp lp h i) i
    [futures_create_order (stop_limit_params symbol side q sp lp)].
Proof.
  unfold footprint, place_stop_limit_order, log_order, order_handler.
  run_cases.
Qed.

Lemma display_order_details_footprint order h i :
  footprint (display_order_details P order h i) i [].
Proof.
  unfold footprint, display_order_details, print_field. run_cases.
Qed.

End BotFacts.

(* ===================================================================== *)
(** * The shape of an interactive order workflow *)
(* ===================================================================== *)

Arguments validate_inputs : simpl never.
Arguments parse_limit_price : simpl never.
Arguments parse_stop_limit_prices : simpl never.


Section MenuFacts.

Variable P : platform.

(** Replaces the run of an operation of the bot by its footprint. *)
Ltac footprints :=
  match goal with
  | |- context [get_current_price P ?s ?h ?i] =>
      let F := fresh "F" in
      pose proof (get_current_price_footprint P s h i) as F;
      destruct (get_current_price P s h i) as [[?|?] ? ?]
  | |- context [place_market_order P ?s ?d ?q ?h ?i] =>
      let F := fresh "F" in
      pose proof (place_market_order_footprint P s d q h i) as F;
      destruct (place_market_order P s d q h i) as [[?|?] ? ?]
  | |- context [place_limit_order P ?s ?d ?q ?p ?h ?i] =>
      let F := fresh "F" in
      pose proof (place_limit_order_footprint P s d q p h i) as F;
      destruct (place_limit_order P s d q p h i) as [[?|?] ? ?]
  | |- context [place_stop_limit_order P ?s ?d ?q ?sp ?lp ?h ?i] =>
      let F := fresh "F" in
      pose proof (place_stop_limit_order_footprint P s d q sp lp h i) as F;
      destruct (place_stop_limit_order P s d q sp lp h i) as [[?|?] ? ?]
  | |- context [display_order_details P ?o ?h ?i] =>
      let F := fresh "F" in
      pose proof (display_order_details_footprint P o h i) as F;
      destruct (display_order_details P o h i) as [[?|?] ? ?]
  end;
  match goal with
  | F : footprint _ _ _ |- _ =>
      unfold footprint in F; simpl in F;
      let F1 := fresh "Fc" in let F2 := fresh "Fa" in let F3 := fresh "Fr" in
      destruct F as (F1 & F2 & F3); subst
  end.

(** Reads the trace of a finished run. *)
Ltac read_trace :=
  unfold final;
  repeat (simpl;
          rewrite ?calls_app, ?answers_app, ?fold_left_app;
          repeat match goal with
                 | H : calls _ = _ |- _ => rewrite H
                 | H : answers _ = _ |- _ => rewrite H
                 end);
  simpl.

Ltac classify :=
  first
    [ solve [apply (Stopped _ ""); read_trace; auto]
    | solve [eapply Stopped; read_trace; eauto]
    | solve [eapply Declined; read_trace; eauto]
    | solve [eapply Sent; read_trace; eauto] ].

Ltac walk :=
  unfold_io; unfold input, report; unfold_io; simpl;
  repeat (first [footprints | break_match]; simpl).

Lemma market_order_menu_workflow h i :
  workflow (events (market_order_menu P h i)).
Proof.
  unfold market_order_menu. walk; classify.
Qed.

Lemma limit_order_menu_workflow h i :
  workflow (events (limit_order_menu P h i)).
Proof.
  unfold limit_order_menu. walk; classify.
Qed.

Lemma stop_limit_order_menu_workflow h i :
  workflow (events (stop_limit_order_menu P h i)).
Proof.
  unfold stop_limit_order_menu. walk; classify.
Qed.

Lemma order_menu_workflow ty h i :
  workflow (events (order_menu P ty h i)).
Proof.
  destruct ty; simpl.
  - apply market_order_menu_workflow.
  - apply limit_order_menu_workflow.
  - apply stop_limit_order_menu_workflow.
Qed.

(** Every menu handler catches what its body raises. *)
Lemma order_menu_returns ty h i : result (order_menu P ty h i) = Ret tt.
Proof.
  destruct ty; simpl;
    [unfold market_order_menu | unfold limit_order_menu
    | unfold stop_limit_order_menu];
    walk;
    repeat match goal with u : unit |- _ => destruct u end; reflexivity.
Qed.

End MenuFacts.


(* ===================================================================== *)
(** * Order Builder *)
(* ===================================================================== *)

Lemma footprint_submits {A} (r : run A) i cs :
  footprint r i cs -> submits (events r) = submitted cs.
Proof. intros (Hc & _ & _). rewrite submits_calls, Hc. reflexivity. Qed.

(** C5. The parameters each sender submits are a function of its
    arguments alone: whatever the exchange, the trace so far and the
    pending input, [place_market_order], [place_limit_order] and
    [place_stop_limit_order] submit exactly [market_params],
    [limit_params] and [stop_limit_params] of their arguments.  The
    market parameters have no [price] and no [stopPrice] field; the limit
    and stop-limit parameters carry [timeInForce = GTC]; the stop-limit
    order goes out with type [STOP]. *)
Theorem order_builder_pure (P : platform) (h : list event) (i : list string)
  (symbol side : string) (q pr sp : float) :
  submits (events (place_market_order P symbol side q h i))
    = [market_params symbol side q] /\
  submits (events (place_limit_order P symbol side q pr h i))
    = [limit_params symbol side q pr] /\
  submits (events (place_stop_limit_order P symbol side q sp pr h i))
    = [stop_limit_params symbol side q sp pr] /\
  assoc "price" (market_params symbol side q) = None /\
  assoc "stopPrice" (market_params symbol side q) = None /\
  assoc "timeInForce" (limit_params symbol side q pr) = Some (VStr "GTC") /\
  assoc "timeInForce" (stop_limit_params symbol side q sp pr)
    = Some (VStr "GTC") /\
  assoc "type" (stop_limit_params symbol side q sp pr) = Some (VStr "STOP").
Proof.
  repeat split; try reflexivity.
  - apply (footprint_submits _ _ _ (place_market_order_footprint P _ _ _ h i)).
  - apply (footprint_submits _ _ _ (place_limit_order_footprint P _ _ _ _ h i)).
  - apply (footprint_submits _ _ _
             (place_stop_limit_order_footprint P _ _ _ _ _ h i)).
Qed.

(* ===================================================================== *)
(** * The confirmation gate *)
(* ===================================================================== *)

(** C6. In each interactive order workflow, when the operator's answer
    at the confirmation prompt is a decline, no submit call is made, the
    workflow returns, and its last act is to print that the order is
    cancelled. *)
Theorem decline_aborts (P : platform) (ty : OrderType)
  (h : list event) (i : list string) :
  declined (events (order_menu P ty h i)) = true ->
  submits (events (order_menu P ty h i)) = [] /\
  final (events (order_menu P ty h i)) = Some (Print [Txt "Order cancelled."]) /\
  result (order_menu P ty h i) = Ret tt.
Proof.
  intros D. unfold declined in D.
  destruct (order_menu_workflow P ty h i) as [s Ha Hc|a s Ha Hy Hc Hf|a s ps Ha Hy Hc].
  - rewrite Ha in D. discriminate.
  - rewrite submits_calls, Hc. repeat split; auto using order_menu_returns.
  - rewrite Ha in D. simpl in D. rewrite Hy in D. discriminate.
Qed.

Lemma decline_aborts_witness :
  submits (events (order_menu (Scenario.exchange_at "49000.0" false) LIMIT []
                     ["BTCUSDT"; "sell"; "0.5"; "51000"; "no"])) = [] /\
  final (events (order_menu (Scenario.exchange_at "49000.0" false) LIMIT []
                     ["BTCUSDT"; "sell"; "0.5"; "51000"; "no"]))
    = Some (Print [Txt "Order cancelled."]) /\
  result (order_menu (Scenario.exchange_at "49000.0" false) LIMIT []
            ["BTCUSDT"; "sell"; "0.5"; "51000"; "no"]) = Ret tt.
Proof.
  apply (decline_aborts (Scenario.exchange_at "49000.0" false) LIMIT []
           ["BTCUSDT"; "sell"; "0.5"; "51000"; "no"]).
  vm_compute. reflexivity.
Defined.





(* ===================================================================== *)
(** * The input validator *)
(* ===================================================================== *)

Lemma validate_inputs_hides_positivity (symbol side quantity : string) :
  validate_inputs symbol side quantity
    <> Raise (ValueError "Quantity must be positive").
Proof.
  unfold validate_inputs.
  destruct (negb (str_truthy symbol)); [discriminate|].
  destruct (negb _); [discriminate|].
  destruct (float_of_str quantity) as [qty|e]; simpl.
  - destruct (fle qty fzero); simpl; discriminate.
  - destruct e; simpl; discriminate.
Qed.

(** A quantity text that does not parse, or parses to a number that is
    not above zero, never passes [validate_inputs]. *)
Lemma bad_quantity_rejected (symbol side quantity : string) :
  (exists e, float_of_str quantity = Raise e) \/
  (exists qty, float_of_str quantity = Ret qty /\ fle qty fzero = true) ->
  exists msg, validate_inputs symbol side quantity = Raise (ValueError msg).
Proof.
  intros H. unfold validate_inputs.
  destruct (negb (str_truthy symbol)); [eexists; reflexivity|].
  destruct (negb _); [eexists; reflexivity|].
  destruct H as [[e H]|[qty [H Hle]]]; rewrite H; simpl.
  - unfold float_of_str in H.
    destruct (scan_sign _) as [neg body].
    destruct (_ || _); [discriminate|].
    destruct (String.eqb _ "nan"); [discriminate|].
    destruct (scan_decimal body) as [[m ex]|]; [discriminate|].
    injection H as <-. eexists. reflexivity.
  - rewrite Hle. eexists. reflexivity.
Qed.

(** When [validate_inputs] refuses what the operator typed, the workflow
    calls the exchange not once: nothing is looked up and nothing is
    submitted. *)
Lemma refused_inputs_call_nothing (P : platform) (ty : OrderType)
  (h : list event) (symbol side quantity : string) (more : list string)
  (e : exn) :
  validate_inputs (strip symbol) (strip side) (strip quantity) = Raise e ->
  calls (events (order_menu P ty h (symbol :: side :: quantity :: more))) = [].
Proof.
  intros H.
  destruct ty; simpl;
    [unfold market_order_menu | unfold limit_order_menu
    | unfold stop_limit_order_menu];
    unfold_io; unfold input, report; unfold_io; simpl;
    repeat match goal with
           | |- context [match ?l with [] => _ | _ :: _ => _ end] =>
               is_var l; destruct l; simpl
           end;
    rewrite ?H; reflexivity.
Qed.

(** C10. When the symbol and side checks have passed and the quantity
    text parses as a number that is not above zero, [validate_inputs]
    raises the format error, not the positivity error: the handler of
    the inner [try] replaces it.  No input at all makes [validate_inputs]
    raise the positivity message. *)
Theorem nonpositive_quantity_reports_format
  (symbol side quantity : string) (qty : float) :
  str_truthy symbol = true ->
  upper side = "BUY" \/ upper side = "SELL" ->
  float_of_str quantity = Ret qty ->
  fle qty fzero = true ->
  validate_inputs symbol side quantity
    = Raise (ValueError "Invalid quantity format") /\
  (forall s d q,
     validate_inputs s d q <> Raise (ValueError "Quantity must be positive")).
Proof.
  intros Hs Hd Hq Hle. split; [|apply validate_inputs_hides_positivity].
  unfold validate_inputs. rewrite Hs. simpl.
  replace (String.eqb (upper side) "BUY" || String.eqb (upper side) "SELL")
    with true.
  - simpl. rewrite Hq. simpl. rewrite Hle. reflexivity.
  - symmetry. apply orb_true_iff.
    destruct Hd as [Hd|Hd]; rewrite Hd; auto.
Qed.

Lemma nonpositive_quantity_reports_format_witness :
  validate_inputs "BTCUSDT" "buy" "-1"
    = Raise (ValueError "Invalid quantity format") /\
  (forall s d q,
     validate_inputs s d q <> Raise (ValueError "Quantity must be positive")).
Proof.
  apply (nonpositive_quantity_reports_format "BTCUSDT" "buy" "-1"
           (dec_to_float true 1 0)).
  - reflexivity.
  - left. reflexivity.
  - vm_compute. reflexivity.
  - vm_compute. reflexivity.
Defined.

(** C4. The quantity text [nan] is no positive decimal, yet it passes
    [validate_inputs]: it parses as a float and the test [qty <= 0] is
    false for NaN.  Once confirmed, the market order goes out with
    quantity NaN.  The price text [inf] passes the price block of the
    limit workflow the same way. *)
Theorem nan_quantity_is_submitted :
  validate_inputs "BTCUSDT" "BUY" "nan" = Ret ("BTCUSDT", "BUY", nan) /\
  submits (events (order_menu (Scenario.exchange_at "49000.0" false) MARKET []
                     ["BTCUSDT"; "BUY"; "nan"; "y"]))
    = [market_params "BTCUSDT" "BUY" nan] /\
  parse_limit_price "inf" = Ret (inf false) /\
  submits (events (order_menu (Scenario.exchange_at "49000.0" false) LIMIT []
                     ["BTCUSDT"; "BUY"; "0.01"; "inf"; "y"]))
    = [limit_params "BTCUSDT" "BUY" (Scenario.num 1 (-2)) (inf false)].
Proof. repeat split; vm_compute; reflexivity. Qed.

(* ===================================================================== *)
(** * The stop-price direction check *)
(* ===================================================================== *)

Section BatchFacts.

Variable P : platform.

(** The batch branch compares the stop price with the last price before
    it sends a stop-limit order: a BUY stop at or below it, or a SELL
    stop at or above it, is refused and nothing is submitted. *)
Lemma batch_order_checks_direction (args : Namespace) (sym : string)
  (sd : Side) (q pr sp cur : float) (ticker v : pyval)
  (h : list event) (i : list string) :
  price args = Some pr -> float_truthy pr = true ->
  stop_price args = Some sp -> float_truthy sp = true ->
  exchange P h (futures_symbol_ticker (upper sym)) = Ret ticker ->
  getitem ticker "price" = Ret v ->
  float_of v = Ret cur ->
  (sd = BUY /\ fle sp cur = true) \/ (sd = SELL /\ fge sp cur = true) ->
  submits (events (batch_order P args sym sd STOP_LIMIT q h i)) = [].
Proof.
  intros Hp Hpt Hs Hst Ht Hg Hf Hdir.
  unfold batch_order, flag_missing. rewrite Hp, Hs, Hpt, Hst. simpl.
  unfold_io. simpl. rewrite Ht, Hg. simpl. rewrite Hf. simpl.
  destruct Hdir as [[-> Hc]|[-> Hc]]; simpl; rewrite Hc; simpl.
  - reflexivity.
  - reflexivity.
Qed.

End BatchFacts.

(** C1. The interactive stop-limit workflow has no direction check: with
    the last price at 49000, a confirmed BUY whose stop price 48000 is
    below it and a confirmed SELL whose stop price 50000 is above it are
    both submitted, while [batch_order] refuses the same two orders
    without a submit call. *)
Theorem stop_limit_menu_skips_direction_check :
  let P := Scenario.exchange_at "49000" false in
  let q := Scenario.num 1 (-2) in
  let last := Scenario.num 49000 0 in
  let buy_stop := Scenario.num 48000 0 in
  let buy_limit := Scenario.num 48100 0 in
  let sell_stop := Scenario.num 50000 0 in
  let sell_limit := Scenario.num 49900 0 in
  fle buy_stop last = true /\
  submits (events (order_menu P STOP_LIMIT []
                     ["BTCUSDT"; "BUY"; "0.01"; "48000"; "48100"; "y"]))
    = [stop_limit_params "BTCUSDT" "BUY" q buy_stop buy_limit] /\
  fge sell_stop last = true /\
  submits (events (order_menu P STOP_LIMIT []
                     ["BTCUSDT"; "SELL"; "0.01"; "50000"; "49900"; "y"]))
    = [stop_limit_params "BTCUSDT" "SELL" q sell_stop sell_limit] /\
  submits (events (batch_order P
                     (Scenario.flags BUY STOP_LIMIT q
                        (Some buy_limit) (Some buy_stop))
                     "BTCUSDT" BUY STOP_LIMIT q [] [])) = [] /\
  submits (events (batch_order P
                     (Scenario.flags SELL STOP_LIMIT q
                        (Some sell_limit) (Some sell_stop))
                     "BTCUSDT" SELL STOP_LIMIT q [] [])) = [].
Proof. repeat split; vm_compute; reflexivity. Qed.

(* ===================================================================== *)
(** * The batch path *)
(* ===================================================================== *)

(** C2. Whenever the batch branch is taken (both environment values and
    the symbol, side, type and quantity flags present), [main] fails on
    its first statement: reading [args.api_key] raises [AttributeError],
    the handler prints it, and the run ends with no call to the exchange
    at all, hence no submit call, and no input read. *)
Theorem batch_never_reaches_submit (P : platform)
  (api_key api_secret : option string) (args : Namespace) (fuel : nat)
  (h : list event) (i : list string)
  (sym : string) (sd : Side) (ty : OrderType) (q : float) :
  batch_gate api_key api_secret args = Some (sym, sd, ty, q) ->
  main P api_key api_secret args fuel h i
    = mkRun (Ret (Some tt))
        [Print [Txt "Error: ";
                Err (AttributeError
                       "'Namespace' object has no attribute 'api_key'")]]
        i /\
  calls (events (main P api_key api_secret args fuel h i)) = [] /\
  submits (events (main P api_key api_secret args fuel h i)) = [].
Proof.
  intros G.
  assert (E : main P api_key api_secret args fuel h i
              = mkRun (Ret (Some tt))
                  [Print [Txt "Error: ";
                          Err (AttributeError
                                 "'Namespace' object has no attribute 'api_key'")]]
                  i).
  { unfold main. rewrite G. reflexivity. }
  rewrite E. repeat split.
Qed.

Lemma batch_never_reaches_submit_witness :
  let args := Scenario.flags BUY MARKET (Scenario.num 1 (-2)) None None in
  let r := main (Scenario.exchange_at "49000" false)
             (Some "key") (Some "secret") args 0 [] [] in
  r = mkRun (Ret (Some tt))
        [Print [Txt "Error: ";
                Err (AttributeError
                       "'Namespace' object has no attribute 'api_key'")]]
        [] /\
  calls (events r) = [] /\ submits (events r) = [].
Proof.
  intros args r.
  apply (batch_never_reaches_submit (Scenario.exchange_at "49000" false)
           (Some "key") (Some "secret") args 0 [] []
           "BTCUSDT" BUY MARKET (Scenario.num 1 (-2))).
  reflexivity.
Defined.

(* ===================================================================== *)
(** * The symbol check *)
(* ===================================================================== *)

Lemma find_symbol_truthy (items : list pyval) (wanted : string) (s : pyval) :
  find_symbol items wanted = Ret (Some s) -> truthy s = true.
Proof.
  induction items as [|x items IH]; simpl; [discriminate|].
  destruct (getitem x "symbol") as [name|e] eqn:G; simpl; [|discriminate].
  destruct (eq_str name wanted); [|exact IH].
  intros E. injection E as <-.
  unfold getitem in G. destruct x as [| | | | | |d]; try discriminate.
  destruct d; [discriminate|reflexivity].
Qed.

Lemma order_menu_calls (P : platform) (ty : OrderType)
  (h : list event) (i : list string) :
  ~ In futures_exchange_info (calls (events (order_menu P ty h i))).
Proof.
  destruct (order_menu_workflow P ty h i)
    as [s Ha [Hc|Hc]|a s Ha Hy Hc Hf|a s ps Ha Hy Hc];
    rewrite Hc; simpl; intuition discriminate.
Qed.

(** C3. No order workflow checks the symbol against the exchange
    metadata.  On an exchange that lists ETHUSDT as halted (status
    BREAK), [get_symbol_info], the function written to "validate if
    trading is allowed", refuses the symbol; yet [validate_inputs]
    accepts it, no workflow calls [get_symbol_info], and the confirmed
    market workflow submits the order. *)
Lemma halted_symbol_is_submitted :
  let P := Scenario.exchange_at "2000" false in
  result (get_symbol_info P "ETHUSDT" [] [])
    = Raise (ValueError "Symbol ETHUSDT is not available for trading") /\
  validate_inputs "ETHUSDT" "BUY" "1"
    = Ret ("ETHUSDT", "BUY", Scenario.num 1 0) /\
  submits (events (order_menu P MARKET [] ["ETHUSDT"; "BUY"; "1"; "y"]))
    = [market_params "ETHUSDT" "BUY" (Scenario.num 1 0)] /\
  (forall ty h i,
     ~ In futures_exchange_info (calls (events (order_menu P ty h i)))).
Proof.
  split; [vm_compute; reflexivity|].
  split; [vm_compute; reflexivity|].
  split; [vm_compute; reflexivity|].
  intros ty h i. apply order_menu_calls.
Qed.

(** When the exchange metadata lists no entry for the requested symbol,
    [get_symbol_info] raises "Symbol ... not found"; when it lists the
    symbol with a status other than TRADING, it raises "Symbol ... is not
    available for trading"; either way nothing is submitted.  The
    interactive order workflows never run this check: none of them
    queries the exchange metadata. *)
Lemma symbol_check_outside_workflows (P : platform) (symbol : string)
  (h : list event) (i : list string) (info : pyval) (syms : list pyval) :
  exchange P h futures_exchange_info = Ret info ->
  getitem info "symbols" = Ret (VList syms) ->
  (find_symbol syms (upper symbol) = Ret None ->
   result (get_symbol_info P symbol h i)
     = Raise (ValueError ("Symbol " ++ symbol ++ " not found")%string)) /\
  ((exists s st, find_symbol syms (upper symbol) = Ret (Some s) /\
                 getitem s "status" = Ret st /\
                 ne_str st "TRADING" = true) ->
   result (get_symbol_info P symbol h i)
     = Raise (ValueError
                ("Symbol " ++ symbol ++ " is not available for trading")%string)) /\
  submits (events (get_symbol_info P symbol h i)) = [] /\
  (forall ty h' i',
     ~ In futures_exchange_info (calls (events (order_menu P ty h' i')))).
Proof.
  intros HX HS.
  split; [|split; [|split; [|intros; apply order_menu_calls]]].
  - intros HF. unfold get_symbol_info. unfold_io. simpl. rewrite HX, HS.
    unfold iter. simpl. rewrite HF. reflexivity.
  - intros (s & st & HF & Hst & Hne).
    unfold get_symbol_info. unfold_io. simpl. rewrite HX, HS.
    unfold iter. simpl. rewrite HF. simpl.
    rewrite (find_symbol_truthy _ _ _ HF). simpl. rewrite Hst, Hne.
    reflexivity.
  - unfold get_symbol_info. unfold_io. simpl. rewrite HX, HS.
    unfold iter. simpl.
    repeat (break_match; simpl); reflexivity.
Qed.

Lemma symbol_check_outside_workflows_witness :
  let P := Scenario.exchange_at "2000" false in
  result (get_symbol_info P "ethusdt" [] [])
    = Raise (ValueError "Symbol ethusdt is not available for trading") /\
  submits (events (get_symbol_info P "ethusdt" [] [])) = [].
Proof.
  intros P.
  destruct (symbol_check_outside_workflows P "ethusdt" [] [] Scenario.listing
              [ VDict [("symbol", VStr "BTCUSDT"); ("status", VStr "TRADING")];
                VDict [("symbol", VStr "ETHUSDT"); ("status", VStr "BREAK")] ]
              eq_refl eq_refl) as (_ & H & S & _).
  split; [|exact S].
  apply H.
  exists (VDict [("symbol", VStr "ETHUSDT"); ("status", VStr "BREAK")]).
  exists (VStr "BREAK").
  repeat split; vm_compute; reflexivity.
Defined.

(* ===================================================================== *)
(** * Credentials at startup *)
(* ===================================================================== *)

(** C8, refuted as stated.  With neither environment value set, the
    program does not stop at startup: it asks for the credentials at the
    keyboard and goes on to place a market order. *)
Lemma missing_environment_is_not_fatal :
  let r := main (Scenario.exchange_at "49000" false) None None
             Scenario.no_flags 8 []
             ["my-key"; "my-secret"; "1"; "BTCUSDT"; "BUY"; "0.01"; "y"; "6"] in
  env_truthy None = false /\
  result r = Ret (Some tt) /\
  submits (events r) = [market_params "BTCUSDT" "BUY" (Scenario.num 1 (-2))].
Proof. repeat split; vm_compute; reflexivity. Qed.

Lemma batch_gate_needs_environment (api_key api_secret : option string)
  (args : Namespace) :
  env_truthy api_key = false \/ env_truthy api_secret = false ->
  batch_gate api_key api_secret args = None.
Proof.
  unfold batch_gate.
  intros [E|E]; rewrite E; [|rewrite andb_false_r]; reflexivity.
Qed.

Lemma interactive_when_gate_closed (P : platform)
  (api_key api_secret : option string) (args : Namespace) (fuel : nat)
  (h : list event) (i : list string) :
  batch_gate api_key api_secret args = None ->
  main P api_key api_secret args fuel h i = main_menu P fuel h i.
Proof. intros G. unfold main. rewrite G. reflexivity. Qed.

(** C8, amended.  The two environment values only gate the batch path:
    when either is absent the batch path is not taken, and whenever it is
    not taken (an environment value or a required flag missing) [main] is
    the interactive menu, in which the environment values play no part.
    The interactive path asks for the API key and the API secret at the
    keyboard; if either answer is empty once stripped, the program ends
    at startup: it prints that the credentials are required and returns,
    having shown the two credential prompts only, called the exchange not
    once and read no further input. *)
Theorem missing_credentials_end_startup (P : platform)
  (api_key api_secret : option string) (args : Namespace) (fuel : nat)
  (h : list event) (k s : string) (more : list string) :
  batch_gate api_key api_secret args = None ->
  strip k = "" \/ strip s = "" ->
  let r := main P api_key api_secret args fuel h (k :: s :: more) in
  result r = Ret (Some tt) /\
  final (events r) = Some (Print [Txt "API credentials are required!"]) /\
  prompts (events r)
    = [[Txt "Enter your Binance API Key: "];
       [Txt "Enter your Binance API Secret: "]] /\
  calls (events r) = [] /\
  rest r = more /\
  (forall key secret a,
     env_truthy key = false \/ env_truthy secret = false ->
     batch_gate key secret a = None) /\
  (forall key secret a fuel' h' i',
     batch_gate key secret a = None ->
     main P key secret a fuel' h' i' = main_menu P fuel' h' i').
Proof.
  intros G K r. subst r.
  rewrite (interactive_when_gate_closed P _ _ _ fuel h _ G).
  unfold main_menu, setup_bot. unfold_io. unfold input. simpl.
  replace (negb (str_truthy (strip k)) || negb (str_truthy (strip s)))
    with true.
  - simpl. repeat split.
    + intros key secret a E. apply batch_gate_needs_environment. exact E.
    + intros. apply interactive_when_gate_closed. assumption.
  - symmetry. apply orb_true_iff.
    destruct K as [K|K]; rewrite K; auto.
Qed.

(** Both environment values are set, no flag is given: the interactive
    path all the same, and a blank key ends the program. *)
Lemma missing_credentials_end_startup_witness :
  let r := main (Scenario.exchange_at "49000" false)
             (Some "env-key") (Some "env-secret")
             Scenario.no_flags 8 [] ["  "; "my-secret"; "1"] in
  result r = Ret (Some tt) /\
  final (events r) = Some (Print [Txt "API credentials are required!"]) /\
  prompts (events r)
    = [[Txt "Enter your Binance API Key: "];
       [Txt "Enter your Binance API Secret: "]] /\
  calls (events r) = [] /\
  rest r = ["1"].
Proof.
  destruct (missing_credentials_end_startup
              (Scenario.exchange_at "49000" false)
              (Some "env-key") (Some "env-secret")
              Scenario.no_flags 8 [] "  " "my-secret" ["1"])
    as (R & F & Pr & C & Re & _).
  - reflexivity.
  - left. vm_compute. reflexivity.
  - repeat split; assumption.
Defined.

(* ===================================================================== *)
(** * The scenarios of the specification *)
(* ===================================================================== *)

(** Scenario A: a confirmed market BUY of 0.01 BTCUSDT is looked up,
    submitted once with the market parameters and displayed. *)
Example scenario_A :
  let r := order_menu (Scenario.exchange_at "49000" false) MARKET []
             ["BTCUSDT"; "BUY"; "0.01"; "y"] in
  calls (events r)
    = [futures_symbol_ticker "BTCUSDT";
       futures_create_order
         [("symbol", VStr "BTCUSDT"); ("side", VStr "BUY");
          ("type", VStr "MARKET");
          ("quantity", VFloat (Scenario.num 1 (-2)))]] /\
  final (events r) = Some (Print [Txt (times "=" 50)]).
Proof. split; vm_compute; reflexivity. Qed.

(** Scenario B: side [buy] with quantity [-1] is refused with the format
    error before any call to the exchange. *)
Example scenario_B :
  let r := order_menu (Scenario.exchange_at "49000" false) MARKET []
             ["BTCUSDT"; "buy"; "-1"; "y"] in
  calls (events r) = [] /\
  final (events r)
    = Some (Print [Txt "Error: "; Err (ValueError "Invalid quantity format")]).
Proof. split; vm_compute; reflexivity. Qed.

(** Scenario D: the exchange refuses the order for lack of margin; the
    workflow reports that reason, does not submit again and does not look
    at the account. *)
Example scenario_D :
  let r := order_menu (Scenario.exchange_at "49000" true) MARKET []
             ["BTCUSDT"; "BUY"; "0.01"; "y"] in
  calls (events r)
    = [futures_symbol_ticker "BTCUSDT";
       futures_create_order
         (market_params "BTCUSDT" "BUY" (Scenario.num 1 (-2)))] /\
  final (events r)
    = Some (Print [Txt "Error: ";
                   Err (BinanceAPIException (-2019) "Margin is insufficient.")]).
Proof. split; vm_compute; reflexivity. Qed.

(* ===================================================================== *)
(** * The main menu loop ends *)
(* ===================================================================== *)


Lemma consumes_ret {A} (a : A) : consumes (ret a).
Proof. intros h i. simpl. lia. Qed.

Lemma consumes_raise {A} (e : exn) : consumes (@raise A e).
Proof. intros h i. simpl. lia. Qed.

Lemma consumes_lift {A} (r : res A) : consumes (lift r).
Proof. intros h i. simpl. lia. Qed.

Lemma consumes_emit (e : event) : consumes (emit e).
Proof. intros h i. simpl. lia. Qed.

Lemma consumes_client (P : platform) (c : call) : consumes (client P c).
Proof. intros h i. simpl. lia. Qed.

Lemma consumes_input (p : fmt) : consumes (input p).
Proof. intros h [|l i]; simpl; lia. Qed.

Lemma consumes_bind {A B} (m : M A) (f : A -> M B) :
  consumes m -> (forall a, consumes (f a)) -> consumes (bind m f).
Proof.
  intros Hm Hf h i. unfold bind. specialize (Hm h i).
  destruct (m h i) as [[a|e] t i']; simpl in *; [|lia].
  specialize (Hf a (h ++ t) i').
  destruct (f a (h ++ t) i') as [r' t' i'']; simpl in *. lia.
Qed.

Lemma consumes_try {A} (m : M A) (f : exn -> M A) :
  consumes m -> (forall e, consumes (f e)) -> consumes (try_ m f).
Proof.
  intros Hm Hf h i. unfold try_. specialize (Hm h i).
  destruct (m h i) as [[a|e] t i']; simpl in *; [lia|].
  specialize (Hf e (h ++ t) i').
  destruct (f e (h ++ t) i') as [r' t' i'']; simpl in *. lia.
Qed.

(** What holds of the outcome of [bind m f] when it holds of every
    exception and of the outcome of [f] after [m] has returned. *)
Lemma bind_result {A B} (m : M A) (f : A -> M B) (h : list event)
  (i : list string) (Q : res B -> Prop) :
  (forall e, Q (Raise e)) ->
  (forall a t i', m h i = mkRun (Ret a) t i' ->
                  Q (result (f a (h ++ t) i'))) ->
  Q (result (bind m f h i)).
Proof.
  intros He Hf. unfold bind.
  destruct (m h i) as [[a|e] t i'].
  - specialize (Hf a t i' eq_refl).
    destruct (f a (h ++ t) i'); exact Hf.
  - apply He.
Qed.

(** Walks through a program built from the combinators of [M]. *)
Ltac consumes_step :=
  match goal with
  | |- consumes (bind _ _) => apply consumes_bind; [|intros]
  | |- consumes (try_ _ _) => apply consumes_try; [|intros]
  | |- consumes (ret _) => apply consumes_ret
  | |- consumes (raise _) => apply consumes_raise
  | |- consumes (lift _) => apply consumes_lift
  | |- consumes (emit _) => apply consumes_emit
  | |- consumes (print _) => apply consumes_emit
  | |- consumes (logger_info _) => apply consumes_emit
  | |- consumes (logger_error _) => apply consumes_emit
  | |- consumes (client _ _) => apply consumes_client
  | |- consumes (input _) => apply consumes_input
  | |- consumes (match ?x with _ => _ end) => destruct x
  | |- consumes (let (_, _) := ?x in _) => destruct x
  end.

Ltac consumes_all := repeat consumes_step.

Section Termination.

Variable P : platform.

Lemma consumes_order_handler msg e : consumes (order_handler msg e).
Proof. unfold order_handler. consumes_all. Qed.

Lemma consumes_log_order msg o : consumes (log_order msg o).
Proof. unfold log_order. consumes_all. Qed.

Lemma consumes_get_current_price s : consumes (get_current_price P s).
Proof. unfold get_current_price. consumes_all. Qed.

Lemma consumes_place_market_order s d q :
  consumes (place_market_order P s d q).
Proof.
  unfold place_market_order. consumes_all;
    auto using consumes_log_order, consumes_order_handler.
Qed.

Lemma consumes_place_limit_order s d q p :
  consumes (place_limit_order P s d q p).
Proof.
  unfold place_limit_order. consumes_all;
    auto using consumes_log_order, consumes_order_handler.
Qed.

Lemma consumes_place_stop_limit_order s d q sp lp :
  consumes (place_stop_limit_order P s d q sp lp).
Proof.
  unfold place_stop_limit_order. consumes_all;
    auto using consumes_log_order, consumes_order_handler.
Qed.

Lemma consumes_display_order_details o :
  consumes (display_order_details P o).
Proof. unfold display_order_details, print_field. consumes_all. Qed.

Lemma consumes_order_menu ty : consumes (order_menu P ty).
Proof.
  destruct ty; simpl;
    [unfold market_order_menu | unfold limit_order_menu
    | unfold stop_limit_order_menu];
    unfold report; consumes_all;
    auto using consumes_get_current_price, consumes_place_market_order,
      consumes_place_limit_order, consumes_place_stop_limit_order,
      consumes_display_order_details.
Qed.

Lemma consumes_print_positions ps : consumes (print_positions ps).
Proof.
  induction ps as [|p ps IH]; simpl; consumes_all. exact IH.
Qed.

Lemma consumes_print_orders os : consumes (print_orders os).
Proof.
  induction os as [|o os IH]; simpl; consumes_all. exact IH.
Qed.

Lemma consumes_view_account_menu : consumes (view_account_menu P).
Proof.
  unfold view_account_menu, get_account_info. consumes_all.
  apply (consumes_print_positions (_ :: _)).
Qed.

Lemma consumes_view_orders_menu : consumes (view_orders_menu P).
Proof.
  unfold view_orders_menu, get_open_orders. consumes_all.
  apply consumes_print_orders.
Qed.

Lemma consumes_print_menu : consumes print_menu.
Proof. unfold print_menu. consumes_all. Qed.

(** With more rounds allowed than there are input lines, the loop of
    the main menu ends: it returns on choice 6 or stops on the end of the
    input. *)
Lemma menu_loop_ends (fuel : nat) (h : list event) (i : list string) :
  List.length i < fuel -> result (menu_loop P fuel h i) <> Ret None.
Proof.
  revert h i. induction fuel as [|n IH]; intros h i Hlen; [lia|].
  assert (Step : forall (m : M unit) h' i',
            consumes m -> List.length i' < n ->
            result (bind m (fun _ => menu_loop P n) h' i') <> Ret None).
  { intros m h' i' Hm Hi. apply bind_result; [discriminate|].
    intros a t i2 E. apply IH.
    specialize (Hm h' i'). rewrite E in Hm. simpl in Hm. lia. }
  cbn [menu_loop].
  apply bind_result; [discriminate|]. intros [] t i1 E1.
  pose proof (consumes_print_menu h i) as H1. rewrite E1 in H1. simpl in H1.
  apply bind_result; [discriminate|]. intros c t2 i2 E2.
  unfold input in E2. destruct i1 as [|c' i1]; [discriminate|].
  injection E2 as <- <- <-. simpl in H1.
  assert (Hi : List.length i1 < n) by lia.
  repeat match goal with
         | |- result ((if ?b then _ else _) _ _) <> _ => destruct b
         end.
  - apply Step; [apply (consumes_order_menu MARKET)|exact Hi].
  - apply Step; [apply (consumes_order_menu LIMIT)|exact Hi].
  - apply Step; [apply (consumes_order_menu STOP_LIMIT)|exact Hi].
  - apply Step; [apply consumes_view_account_menu|exact Hi].
  - apply Step; [apply consumes_view_orders_menu|exact Hi].
  - simpl. discriminate.
  - apply Step; [apply consumes_emit|exact Hi].
Qed.

(** [main_menu] likewise: with enough rounds allowed it never reports a
    loop still running. *)
Lemma main_menu_ends (fuel : nat) (h : list event) (i : list string) :
  List.length i < fuel -> result (main_menu P fuel h i) <> Ret None.
Proof.
  intros Hlen. unfold main_menu.
  apply bind_result; [discriminate|]. intros ok t i1 E.
  assert (Hs : consumes (setup_bot P)).
  { unfold setup_bot, TradingBot, test_connection. unfold setup_logging.
    consumes_all. }
  specialize (Hs h i). rewrite E in Hs. simpl in Hs.
  destruct ok; simpl; [|discriminate].
  apply menu_loop_ends. lia.
Qed.

End Termination.

(* ===================================================================== *)
(** * Further properties: the input validator and the price blocks *)
(* ===================================================================== *)

Lemma str_truthy_nonempty (s : string) : str_truthy s = true <-> s <> "".
Proof. destruct s; simpl; split; congruence. Qed.

Lemma side_test (side : string) :
  String.eqb (upper side) "BUY" || String.eqb (upper side) "SELL" = true
  <-> upper side = "BUY" \/ upper side = "SELL".
Proof. rewrite orb_true_iff, !String.eqb_eq. reflexivity. Qed.

(** [float(text)] raises nothing but [ValueError]. *)
Lemma float_of_str_raises (s : string) (e : exn) :
  float_of_str s = Raise e -> e = float_error s.
Proof.
  unfold float_of_str.
  destruct (scan_sign _) as [neg body].
  destruct (_ || _); [discriminate|].
  destruct (String.eqb _ "nan"); [discriminate|].
  destruct (scan_decimal body) as [[m ex]|]; [discriminate|].
  congruence.
Qed.

(** X1. [validate_inputs] accepts exactly the inputs whose symbol is not
    empty, whose side is BUY or SELL in any letter case and whose
    quantity parses to a float for which [qty <= 0] is false; it returns
    the symbol and the side in upper case and the parsed quantity. *)
Theorem validate_inputs_accepts (symbol side quantity s d : string)
  (qty : float) :
  validate_inputs symbol side quantity = Ret (s, d, qty) <->
  symbol <> "" /\
  (upper side = "BUY" \/ upper side = "SELL") /\
  float_of_str quantity = Ret qty /\
  fle qty fzero = false /\
  s = upper symbol /\ d = upper side.
Proof.
  unfold validate_inputs.
  rewrite <- str_truthy_nonempty, <- side_test.
  destruct (str_truthy symbol); simpl; [|intuition discriminate].
  destruct (_ || _); simpl; [|intuition discriminate].
  destruct (float_of_str quantity) as [v|e] eqn:F; simpl.
  - destruct (fle v fzero) eqn:L; simpl.
    + split; [discriminate|]. intros (_ & _ & E & L' & _).
      injection E as <-. congruence.
    + split.
      * intros E. injection E as <- <- <-. repeat split; auto.
      * intros (_ & _ & E & _ & -> & ->). injection E as <-. reflexivity.
  - split; [|intuition discriminate].
    destruct e; discriminate.
Qed.

(** X2. [validate_inputs] fails with one of three errors, tested in this
    order: an empty symbol gives "Symbol is required" whatever the side
    and the quantity; otherwise a side that is neither BUY nor SELL gives
    the side error whatever the quantity; otherwise the quantity does not
    parse or is not above zero and the error is the format error. *)
Theorem validate_inputs_refuses (symbol side quantity : string) (e : exn) :
  validate_inputs symbol side quantity = Raise e ->
  (symbol = "" /\ e = ValueError "Symbol is required") \/
  (symbol <> "" /\ upper side <> "BUY" /\ upper side <> "SELL" /\
   e = ValueError "Side must be 'BUY' or 'SELL'") \/
  (symbol <> "" /\ (upper side = "BUY" \/ upper side = "SELL") /\
   (float_of_str quantity = Raise (float_error quantity) \/
    exists qty, float_of_str quantity = Ret qty /\ fle qty fzero = true) /\
   e = ValueError "Invalid quantity format").
Proof.
  unfold validate_inputs.
  destruct symbol as [|c symbol]; simpl.
  { intros E. injection E as <-. auto. }
  destruct (String.eqb (upper side) "BUY") eqn:B; simpl.
  - apply String.eqb_eq in B.
    destruct (float_of_str quantity) as [v|x] eqn:F; simpl.
    + destruct (fle v fzero) eqn:L; simpl; [|discriminate].
      intros E. injection E as <-. right. right.
      repeat split; eauto; discriminate.
    + rewrite (float_of_str_raises _ _ F) in *. simpl.
      intros E. injection E as <-. right. right.
      repeat split; auto; discriminate.
  - destruct (String.eqb (upper side) "SELL") eqn:S; simpl.
    + apply String.eqb_eq in S.
      destruct (float_of_str quantity) as [v|x] eqn:F; simpl.
      * destruct (fle v fzero) eqn:L; simpl; [|discriminate].
        intros E. injection E as <-. right. right.
        repeat split; eauto; discriminate.
      * rewrite (float_of_str_raises _ _ F) in *. simpl.
        intros E. injection E as <-. right. right.
        repeat split; auto; discriminate.
    + apply String.eqb_neq in B, S.
      intros E. injection E as <-. right. left.
      repeat split; auto; discriminate.
Qed.

Lemma validate_inputs_refuses_witness :
  ("" = "" /\ ValueError "Symbol is required" = ValueError "Symbol is required") \/
  ("" <> "" /\ upper "hold" <> "BUY" /\ upper "hold" <> "SELL" /\
   ValueError "Symbol is required" = ValueError "Side must be 'BUY' or 'SELL'") \/
  ("" <> "" /\ (upper "hold" = "BUY" \/ upper "hold" = "SELL") /\
   (float_of_str "abc" = Raise (float_error "abc") \/
    exists qty, float_of_str "abc" = Ret qty /\ fle qty fzero = true) /\
   ValueError "Symbol is required" = ValueError "Invalid quantity format").
Proof.
  apply (validate_inputs_refuses "" "hold" "abc"
           (ValueError "Symbol is required")).
  reflexivity.
Defined.

(** X3. The price block of the limit workflow accepts exactly the texts
    that parse to a float for which [price <= 0] is false and returns
    that float; every other text, a zero or negative price included,
    gives the one error "Invalid price format". *)
Theorem parse_limit_price_outcome (price : string) :
  parse_limit_price price
  = match float_of_str price with
    | Ret p => if fle p fzero then Raise (ValueError "Invalid price format")
               else Ret p
    | Raise _ => Raise (ValueError "Invalid price format")
    end.
Proof.
  unfold parse_limit_price.
  destruct (float_of_str price) as [p|e] eqn:F; simpl.
  - destruct (fle p fzero); reflexivity.
  - rewrite (float_of_str_raises _ _ F). reflexivity.
Qed.

(** X4. The price block of the stop-limit workflow accepts exactly the
    pairs of texts that both parse to floats for which [price <= 0] is
    false; as soon as either text does not parse or either price is not
    above zero, the error is the one "Invalid price format". *)
Theorem parse_stop_limit_prices_outcome (stop_price limit_price : string) :
  (forall sp lp,
     parse_stop_limit_prices stop_price limit_price = Ret (sp, lp) <->
     float_of_str stop_price = Ret sp /\ float_of_str limit_price = Ret lp /\
     fle sp fzero = false /\ fle lp fzero = false) /\
  (forall e,
     parse_stop_limit_prices stop_price limit_price = Raise e ->
     e = ValueError "Invalid price format").
Proof.
  unfold parse_stop_limit_prices.
  destruct (float_of_str stop_price) as [a|x] eqn:F1; simpl.
  - destruct (float_of_str limit_price) as [b|y] eqn:F2; simpl.
    + destruct (fle a fzero) eqn:La, (fle b fzero) eqn:Lb; simpl;
        (split; [intros sp lp; split;
                 [ intros E; try discriminate; injection E as <- <-; auto
                 | intros (E1 & E2 & L1 & L2);
                   injection E1 as <-; injection E2 as <-; congruence ]
                | intros e E; try discriminate; congruence ]).
    + rewrite (float_of_str_raises _ _ F2). simpl.
      split; [intros sp lp; split; [discriminate|intuition discriminate]|].
      intros e E. congruence.
  - rewrite (float_of_str_raises _ _ F1). simpl.
    split; [intros sp lp; split; [discriminate|intuition discriminate]|].
    intros e E. congruence.
Qed.

(* ===================================================================== *)
(** * Further properties: the operations of TradingBot *)
(* ===================================================================== *)

Section BotOutcomes.

Variable P : platform.

(** X5. [test_connection] never raises: it returns [True] exactly when
    the account query answers with a dictionary, and [False] on any
    exception of the query or of reading the balance, after logging it;
    it makes the one call [futures_account]. *)
Theorem test_connection_outcome (h : list event) (i : list string) :
  result (test_connection P h i)
    = Ret (match exchange P h futures_account with
           | Ret (VDict _) => true
           | _ => false
           end) /\
  calls (events (test_connection P h i)) = [futures_account] /\
  rest (test_connection P h i) = i.
Proof.
  unfold test_connection. unfold_io. simpl.
  destruct (exchange P h futures_account) as [v|e]; simpl; [|auto].
  unfold get. destruct v; simpl; auto.
Qed.

(** X6. Building a [TradingBot] fails only when building the exchange
    client fails, with the client's exception; a failed connection test
    does not stop it.  The client is built first, then the account is
    queried once. *)
Theorem TradingBot_outcome (api_key api_secret : string) (testnet : bool)
  (h : list event) (i : list string) :
  let r := TradingBot P api_key api_secret testnet h i in
  let built := exchange P h (Client_init api_key api_secret testnet) in
  result r = match built with Ret _ => Ret tt | Raise e => Raise e end /\
  calls (events r)
    = match built with
      | Ret _ => [Client_init api_key api_secret testnet; futures_account]
      | Raise _ => [Client_init api_key api_secret testnet]
      end /\
  rest r = i.
Proof.
  unfold TradingBot, test_connection. unfold_io. simpl.
  destruct (exchange P h (Client_init api_key api_secret testnet)) as [v|e];
    simpl; [|auto].
  repeat (break_match; simpl); auto.
Qed.

(** X7. [get_account_info] hands on what the account query answers,
    value or exception, unchanged, after the one call; an exception is
    logged once as an error before it is raised again. *)
Theorem get_account_info_outcome (h : list event) (i : list string) :
  let r := get_account_info P h i in
  result r = exchange P h futures_account /\
  calls (events r) = [futures_account] /\
  List.length (error_logs (events r))
    = (match exchange P h futures_account with Ret _ => 0 | Raise _ => 1 end) /\
  rest r = i.
Proof.
  unfold get_account_info. unfold_io. simpl.
  destruct (exchange P h futures_account) as [v|e]; simpl; [auto|].
  destruct e; simpl; auto.
Qed.

(** X8. [get_current_price] asks the ticker of the symbol in upper case
    once and returns the float read from its ['price']; a failing call, a
    ticker without ['price'] and a price that is no number each raise
    their own exception, logged once as an error. *)
Theorem get_current_price_outcome (symbol : string)
  (h : list event) (i : list string) :
  let r := get_current_price P symbol h i in
  result r
    = (let? ticker := exchange P h (futures_symbol_ticker (upper symbol)) in
       let? p := getitem ticker "price" in
       float_of p) /\
  calls (events r) = [futures_symbol_ticker (upper symbol)] /\
  (forall e, result r = Raise e ->
     error_logs (events r)
       = [[Txt "Error getting current price for "; Txt symbol; Txt ": ";
           Err e]]) /\
  (forall p, result r = Ret p -> error_logs (events r) = []) /\
  rest r = i.
Proof.
  unfold get_current_price. unfold_io. simpl.
  destruct (exchange P h (futures_symbol_ticker (upper symbol))) as [t|e];
    simpl.
  - destruct (getitem t "price") as [p|e]; simpl.
    + destruct (float_of p) as [f|e]; simpl;
        repeat split; auto; intros ? E; try discriminate;
        injection E as <-; reflexivity.
    + repeat split; auto; intros ? E; try discriminate;
        injection E as <-; reflexivity.
  - repeat split; auto; intros ? E; try discriminate;
      injection E as <-; reflexivity.
Qed.

(** X9. [get_symbol_info] returns an entry exactly when the exchange
    metadata can be read, the entry is the first one whose ['symbol'] is
    the requested symbol in upper case, and its ['status'] is TRADING. *)
Theorem get_symbol_info_returns (symbol : string) (s : pyval)
  (h : list event) (i : list string) :
  result (get_symbol_info P symbol h i) = Ret s <->
  exists info syms items st,
    exchange P h futures_exchange_info = Ret info /\
    getitem info "symbols" = Ret syms /\
    iter syms = Ret items /\
    find_symbol items (upper symbol) = Ret (Some s) /\
    getitem s "status" = Ret st /\
    eq_str st "TRADING" = true.
Proof.
  unfold get_symbol_info. unfold_io. simpl. split.
  - destruct (exchange P h futures_exchange_info) as [info|e] eqn:X; simpl;
      [|destruct e; simpl; discriminate].
    destruct (getitem info "symbols") as [syms|e] eqn:G; simpl;
      [|destruct e; simpl; discriminate].
    destruct (iter syms) as [items|e] eqn:I; simpl;
      [|destruct e; simpl; discriminate].
    destruct (find_symbol items (upper symbol)) as [[x|]|e] eqn:F; simpl;
      [| discriminate | destruct e; simpl; discriminate].
    destruct (truthy x); simpl; [|discriminate].
    destruct (getitem x "status") as [st|e] eqn:S; simpl;
      [|destruct e; simpl; discriminate].
    unfold ne_str. destruct (eq_str st "TRADING") eqn:T; simpl;
      [|discriminate].
    intros E. injection E as <-. exists info, syms, items, st.
    repeat split; auto.
  - intros (info & syms & items & st & X & G & I & F & S & T).
    rewrite X. simpl. rewrite G. simpl. rewrite I. simpl. rewrite F. simpl.
    rewrite (find_symbol_truthy _ _ _ F). simpl. rewrite S. simpl.
    unfold ne_str. rewrite T. reflexivity.
Qed.

(** Settles one sender: case analysis on the exchange's answer and on
    the two keys read for the log. *)
Ltac sender_cases :=
  unfold log_order, order_handler, sender_result; unfold_io; simpl;
  match goal with
  | |- context [exchange P ?h' ?c] =>
      destruct (exchange P h' c) as [?|[]] eqn:?; simpl
  end;
  try match goal with
      | |- context [getitem ?o "orderId"] =>
          destruct (getitem o "orderId") as [?|[]] eqn:?; simpl
      end;
  try match goal with
      | |- context [getitem ?o "status"] =>
          destruct (getitem o "status") as [?|[]] eqn:?; simpl
      end;
  eexists; (split; [reflexivity|]); simpl;
  repeat match goal with
         | H : getitem _ _ = _ |- _ => rewrite H; simpl
         end;
  reflexivity.

Lemma place_market_order_result symbol side q h i :
  exists ans,
    submit_results (events (place_market_order P symbol side q h i)) = [ans]
    /\ result (place_market_order P symbol side q h i) = sender_result ans.
Proof. unfold place_market_order. sender_cases. Qed.

Lemma place_limit_order_result symbol side q pr h i :
  exists ans,
    submit_results (events (place_limit_order P symbol side q pr h i)) = [ans]
    /\ result (place_limit_order P symbol side q pr h i) = sender_result ans.
Proof. unfold place_limit_order. sender_cases. Qed.

Lemma place_stop_limit_order_result symbol side q sp pr h i :
  exists ans,
    submit_results
      (events (place_stop_limit_order P symbol side q sp pr h i)) = [ans]
    /\ result (place_stop_limit_order P symbol side q sp pr h i)
       = sender_result ans.
Proof. unfold place_stop_limit_order. sender_cases. Qed.

(** X10. Each sender makes its submit call once and turns the exchange's
    answer into its own outcome in the same way: an exception of the
    exchange is raised again unchanged; an acknowledged order is returned
    as it came, unless it lacks ['orderId'] or ['status'], in which case
    the sender raises although the order has been submitted. *)
Theorem sender_outcome (symbol side : string) (q pr sp : float)
  (h : list event) (i : list string) :
  (exists ans,
     submit_results (events (place_market_order P symbol side q h i)) = [ans]
     /\ result (place_market_order P symbol side q h i) = sender_result ans) /\
  (exists ans,
     submit_results (events (place_limit_order P symbol side q pr h i)) = [ans]
     /\ result (place_limit_order P symbol side q pr h i) = sender_result ans) /\
  (exists ans,
     submit_results
       (events (place_stop_limit_order P symbol side q sp pr h i)) = [ans]
     /\ result (place_stop_limit_order P symbol side q sp pr h i)
        = sender_result ans).
Proof.
  split; [apply place_market_order_result|].
  split; [apply place_limit_order_result|].
  apply place_stop_limit_order_result.
Qed.

(** X11. [get_open_orders] makes one query: for the symbol in upper case
    when one is given, for all symbols when it is absent or empty.  It
    returns what the exchange answers when that has a length; an
    exception of the query, or an answer without a length, is raised
    after one error line. *)
Theorem get_open_orders_outcome (symbol : option string)
  (h : list event) (i : list string) :
  let r := get_open_orders P symbol h i in
  let query :=
    futures_get_open_orders
      (match symbol with
       | Some s => if str_truthy s then Some (upper s) else None
       | None => None
       end) in
  calls (events r) = [query] /\
  result r = (let? orders := exchange P h query in
              let? _ := len orders in
              Ret orders) /\
  List.length (error_logs (events r))
    = (match result r with Ret _ => 0 | Raise _ => 1 end) /\
  rest r = i.
Proof.
  unfold get_open_orders. unfold_io.
  destruct symbol as [[|c s]|]; simpl;
    match goal with
    | |- context [exchange P ?h' ?c] =>
        destruct (exchange P h' c) as [o|e]; simpl
    end;
    try (destruct (len o) as [n|e]; simpl); auto.
Qed.

End BotOutcomes.

(* ===================================================================== *)
(** * Further properties: set-up and the read-only menus *)
(* ===================================================================== *)

Lemma quiet_ret {A} (a : A) : quiet (ret a).
Proof. intros h i. simpl. auto. Qed.

Lemma quiet_raise {A} (e : exn) : quiet (@raise A e).
Proof. intros h i. simpl. auto. Qed.

Lemma quiet_lift {A} (r : res A) : quiet (lift r).
Proof. intros h i. simpl. auto. Qed.

Lemma quiet_print (text : fmt) : quiet (print text).
Proof. intros h i. simpl. auto. Qed.

Lemma quiet_bind {A B} (m : M A) (f : A -> M B) :
  quiet m -> (forall a, quiet (f a)) -> quiet (bind m f).
Proof.
  intros Hm Hf h i. unfold bind. destruct (Hm h i) as [Hc Hr].
  destruct (m h i) as [[a|e] t i']; simpl in *; [|auto].
  destruct (Hf a (h ++ t) i') as [Hc' Hr'].
  destruct (f a (h ++ t) i') as [r' t' i'']; simpl in *.
  rewrite calls_app, Hc, Hc'. subst. auto.
Qed.

(** After [m], a quiet continuation adds no call and reads no line. *)
Lemma bind_quiet {A B} (m : M A) (f : A -> M B) (h : list event)
  (i : list string) :
  (forall a, quiet (f a)) ->
  calls (events (bind m f h i)) = calls (events (m h i)) /\
  rest (bind m f h i) = rest (m h i).
Proof.
  intros Hf. unfold bind.
  destruct (m h i) as [[a|e] t i']; simpl; [|auto].
  destruct (Hf a (h ++ t) i') as [Hc Hr].
  destruct (f a (h ++ t) i') as [r' t' i'']; simpl in *.
  rewrite calls_app, Hc, app_nil_r. auto.
Qed.

(** A [try] whose handler only prints returns, and adds no call and
    reads no line to what its body does. *)
Lemma try_print (m : M unit) (text : exn -> fmt) (h : list event)
  (i : list string) :
  result (try_ m (fun e => print (text e)) h i) = Ret tt /\
  calls (events (try_ m (fun e => print (text e)) h i))
    = calls (events (m h i)) /\
  rest (try_ m (fun e => print (text e)) h i) = rest (m h i).
Proof.
  unfold try_. destruct (m h i) as [[[]|e] t i']; simpl; auto.
  rewrite calls_app. simpl. rewrite app_nil_r. auto.
Qed.

Ltac quiet_step :=
  match goal with
  | |- quiet (bind _ _) => apply quiet_bind; [|intros]
  | |- quiet (ret _) => apply quiet_ret
  | |- quiet (raise _) => apply quiet_raise
  | |- quiet (lift _) => apply quiet_lift
  | |- quiet (print _) => apply quiet_print
  | |- quiet (match ?x with _ => _ end) => destruct x
  end.

Lemma quiet_print_positions ps : quiet (print_positions ps).
Proof.
  induction ps as [|p ps IH]; simpl; repeat quiet_step. exact IH.
Qed.

Lemma quiet_print_orders os : quiet (print_orders os).
Proof.
  induction os as [|o os IH]; simpl; repeat quiet_step. exact IH.
Qed.

Section CliOutcomes.

Variable P : platform.

(** X12. With two lines to read, [setup_bot] never raises.  If either
    line is empty once stripped it returns [False] without any call to
    the exchange.  Otherwise its first call builds the testnet client
    from the two stripped lines, and it returns [True] exactly when that
    call does not raise.  It reads the two lines and no more. *)
Theorem setup_bot_outcome (k s : string) (more : list string)
  (h : list event) :
  let r := setup_bot P h (k :: s :: more) in
  rest r = more /\
  (if str_truthy (strip k) && str_truthy (strip s) then
     exists ans,
       hd_error (answered (events r))
         = Some (Client_init (strip k) (strip s) true, ans) /\
       result r = Ret (match ans with Ret _ => true | Raise _ => false end)
   else
     result r = Ret false /\ calls (events r) = []).
Proof.
  unfold setup_bot, TradingBot, test_connection.
  unfold_io. unfold input. simpl.
  destruct (str_truthy (strip k)), (str_truthy (strip s)); simpl; auto.
  match goal with
  | |- context [exchange P ?h' (Client_init ?a ?b ?c)] =>
      destruct (exchange P h' (Client_init a b c)) as [v|e] eqn:X; simpl
  end.
  - repeat (break_match; simpl); split; auto; eexists; split; reflexivity.
  - split; auto; eexists; split; reflexivity.
Qed.

(** X13. When the input ends before both credentials have been read,
    [setup_bot] raises [EOFError]: the prompts are outside any handler.
    Nothing has been asked of the exchange. *)
Theorem setup_bot_needs_two_lines (h : list event) (i : list string) :
  List.length i < 2 ->
  result (setup_bot P h i) = Raise EOFError /\
  calls (events (setup_bot P h i)) = [] /\
  rest (setup_bot P h i) = [].
Proof.
  intros L. unfold setup_bot. unfold_io. unfold input.
  destruct i as [|k [|s more]]; simpl in *; auto. lia.
Qed.

(** X14. The list comprehension of [view_account_menu] succeeds exactly
    when the amount of every position can be read as a float, whether the
    position is open or flat; it then keeps, in order, the positions
    whose amount is not zero. *)
Theorem open_positions_outcome (items l : list pyval) :
  open_positions items = Ret l <->
  forallb position_readable items = true /\ l = filter position_open items.
Proof.
  revert l. induction items as [|pos items IH]; intros l.
  - simpl. split; [intros E; injection E as <-; auto|intros [_ ->]; reflexivity].
  - cbn [open_positions forallb filter].
    destruct (getitem pos "positionAmt") as [a|e] eqn:G; simpl.
    + destruct (float_of a) as [amt|e] eqn:F; simpl.
      * assert (R : position_readable pos = true)
          by (unfold position_readable; rewrite G, F; reflexivity).
        assert (O : position_open pos = fne amt fzero)
          by (unfold position_open; rewrite G, F; reflexivity).
        rewrite R, O. simpl.
        destruct (open_positions items) as [l'|e]; simpl.
        -- destruct (IH l') as [IH1 _]. destruct (IH1 eq_refl) as [R' ->].
           rewrite R'.
           split; [intros E; injection E as <-; auto
                  |intros [_ ->]; reflexivity].
        -- split; [discriminate|]. intros [R' ->].
           destruct (IH (filter position_open items)) as [_ IH2].
           discriminate IH2. auto.
      * assert (R : position_readable pos = false)
          by (unfold position_readable; rewrite G, F; reflexivity).
        rewrite R. simpl. split; [discriminate|intros [? _]; discriminate].
    + assert (R : position_readable pos = false)
        by (unfold position_readable; rewrite G; reflexivity).
      rewrite R. simpl. split; [discriminate|intros [? _]; discriminate].
Qed.

(** X15. [view_account_menu] never raises and reads no input: it queries
    the account once, and whatever fails afterwards (a query that raises,
    a position that cannot be read) is caught and printed. *)
Theorem view_account_menu_outcome (h : list event) (i : list string) :
  let r := view_account_menu P h i in
  result r = Ret tt /\
  calls (events r) = [futures_account] /\
  rest r = i.
Proof.
  unfold view_account_menu.
  destruct (try_print
              (account_info <- get_account_info P ;;
               print [Txt (nl ++ "💰 ACCOUNT INFORMATION")%string] ;;
               print [Txt "======================"] ;;
               w <- lift (get account_info "totalWalletBalance" (VStr "N/A")) ;;
               print [Txt "Total Wallet Balance: "; Val w; Txt " USDT"] ;;
               a <- lift (get account_info "availableBalance" (VStr "N/A")) ;;
               print [Txt "Available Balance: "; Val a; Txt " USDT"] ;;
               u <- lift (get account_info "totalUnrealizedProfit"
                            (VStr "N/A")) ;;
               print [Txt "Total Unrealized PnL: "; Val u; Txt " USDT"] ;;
               ps <- lift (get account_info "positions" (VList [])) ;;
               items <- lift (iter ps) ;;
               positions <- lift (open_positions items) ;;
               match positions with
               | [] => ret tt
               | _ =>
                   print [Txt (nl ++ "Open Positions: ")%string;
                          Num (List.length positions)] ;;
                   print_positions positions
               end)
              (fun e => [Txt "Error getting account info: "; Err e]) h i)
    as (Hr & Hc & Hi).
  split; [exact Hr|]. rewrite Hc, Hi.
  match goal with
  | |- context [bind ?m ?f h i] =>
      destruct (bind_quiet m f h i) as [Bc Bi]
  end.
  { intros a. repeat quiet_step; apply (quiet_print_positions (_ :: _)). }
  rewrite Bc, Bi.
  destruct (get_account_info_outcome P h i) as (_ & C & _ & R). auto.
Qed.

(** X16. [view_orders_menu] never raises and reads no input: it queries
    the open orders of all symbols once, and whatever fails (the query,
    an order without one of its fields) is caught and printed. *)
Theorem view_orders_menu_outcome (h : list event) (i : list string) :
  let r := view_orders_menu P h i in
  result r = Ret tt /\
  calls (events r) = [futures_get_open_orders None] /\
  rest r = i.
Proof.
  unfold view_orders_menu.
  destruct (try_print
              (orders <- get_open_orders P None ;;
               if negb (truthy orders) then
                 print [Txt (nl ++ "No open orders found.")%string]
               else
                 n <- lift (len orders) ;;
                 print [Txt (nl ++ "OPEN ORDERS (")%string; Num n; Txt ")"] ;;
                 print [Txt (times "=" 60)] ;;
                 items <- lift (iter orders) ;;
                 print_orders items)
              (fun e => [Txt "Error getting orders: "; Err e]) h i)
    as (Hr & Hc & Hi).
  split; [exact Hr|]. rewrite Hc, Hi.
  match goal with
  | |- context [bind ?m ?f h i] =>
      destruct (bind_quiet m f h i) as [Bc Bi]
  end.
  { intros a. repeat quiet_step; apply quiet_print_orders. }
  rewrite Bc, Bi.
  destruct (get_open_orders_outcome P None h i) as (C & _ & _ & R). auto.
Qed.

End CliOutcomes.

Lemma setup_bot_needs_two_lines_witness :
  result (setup_bot (Scenario.exchange_at "49000" false) [] ["my-key"])
    = Raise EOFError /\
  calls (events (setup_bot (Scenario.exchange_at "49000" false) []
                   ["my-key"])) = [] /\
  rest (setup_bot (Scenario.exchange_at "49000" false) [] ["my-key"]) = [].
Proof.
  apply (setup_bot_needs_two_lines (Scenario.exchange_at "49000" false) []
           ["my-key"]).
  simpl. lia.
Defined.

(* ===================================================================== *)
(** * Further properties: what the read-only menus print *)
(* ===================================================================== *)

Lemma printed_app (a b : list event) :
  printed (a ++ b) = printed a ++ printed b.
Proof.
  induction a as [|e a IH]; simpl; [reflexivity|].
  destruct e; simpl; rewrite IH; reflexivity.
Qed.

(** The loop of [view_orders_menu] over orders that have all their
    fields: three lines each, and it returns. *)
Lemma print_orders_lines (os : list pyval) (h : list event)
  (i : list string) :
  forallb order_listable os = true ->
  result (print_orders os h i) = Ret tt /\
  List.length (printed (events (print_orders os h i))) = 3 * List.length os.
Proof.
  revert h. induction os as [|o os IH]; intros h H; [simpl; auto|].
  simpl in H. apply andb_true_iff in H. destruct H as [Ho Hos].
  unfold order_listable in Ho. simpl in Ho.
  repeat match type of Ho with
         | context [getitem ?x ?k] =>
             destruct (getitem x k) eqn:?; simpl in Ho; try discriminate
         end.
  cbn [print_orders]. unfold_io. simpl.
  repeat match goal with
         | E : getitem _ _ = Ret _ |- _ => rewrite E; simpl; clear E
         end.
  match goal with
  | |- context [print_orders os ?h' i] =>
      destruct (IH h' Hos) as [Hr Hl];
      destruct (print_orders os h' i) as [r t i']; simpl in *
  end.
  subst r. split; [reflexivity|]. rewrite Hl. lia.
Qed.


Section ListingFacts.

Variable P : platform.

(** When the exchange reports an empty list of open orders,
    [view_orders_menu] prints the one line that none was found. *)
Lemma view_orders_menu_empty (h : list event) (i : list string) :
  exchange P h (futures_get_open_orders None) = Ret (VList []) ->
  printed (events (view_orders_menu P h i))
    = [[Txt (nl ++ "No open orders found.")%string]].
Proof.
  intros X. unfold view_orders_menu, get_open_orders. unfold_io. simpl.
  rewrite X. reflexivity.
Qed.

(** X17. When the exchange reports a list of open orders that all have
    their seven listed fields, [view_orders_menu] prints a two-line
    heading and three lines for each order. *)
Theorem view_orders_menu_lists_all (os : list pyval) (h : list event)
  (i : list string) :
  exchange P h (futures_get_open_orders None) = Ret (VList os) ->
  forallb order_listable os = true ->
  List.length (printed (events (view_orders_menu P h i)))
    = match os with [] => 1 | _ => 2 + 3 * List.length os end.
Proof.
  intros X L. destruct os as [|o os].
  { rewrite (view_orders_menu_empty h i X). reflexivity. }
  unfold view_orders_menu, get_open_orders. unfold_io.
  cbn -[print_orders]. rewrite X. unfold len, iter. cbn -[print_orders].
  match goal with
  | |- context [print_orders (o :: os) ?h' i] =>
      destruct (print_orders_lines (o :: os) h' i L) as [Hr Hl];
      destruct (print_orders (o :: os) h' i) as [r t i'];
      cbn -[print_orders] in *
  end.
  subst r. simpl. f_equal. f_equal. exact Hl.
Qed.


(** X19. For an order that is a dictionary whose time can be rendered,
    [display_order_details] returns, and it prints the stop-price line
    exactly when the order has a ['stopPrice'] other than the string
    ['0']. *)
Theorem display_order_details_stop_line (d : list (string * pyval))
  (shown : string) (h : list event) (i : list string) :
  fromtimestamp_ms P (match assoc "time" d with Some t => t | None => VInt 0 end)
    = Ret shown ->
  let r := display_order_details P (VDict d) h i in
  result r = Ret tt /\
  ((exists sp, In [Txt "Stop Price: "; Val sp] (printed (events r))) <->
   (exists sp, assoc "stopPrice" d = Some sp /\ ne_str sp "0" = true)).
Proof.
  intros T. unfold display_order_details, print_field, get, contains, getitem.
  unfold_io. simpl. rewrite T. simpl.
  destruct (assoc "stopPrice" d) as [sp|] eqn:A; simpl.
  - destruct (ne_str sp "0") eqn:N; simpl.
    + split; [reflexivity|]. split; intros _; exists sp; auto.
      do 11 right. left. reflexivity.
    + split; [reflexivity|]. split.
      * intros [x H]. repeat (destruct H as [H|H]; [discriminate|]).
        destruct H.
      * intros [x [E N']]. injection E as <-. congruence.
  - split; [reflexivity|]. split.
    + intros [x H]. repeat (destruct H as [H|H]; [discriminate|]).
      destruct H.
    + intros [x [E _]]. discriminate.
Qed.

End ListingFacts.

Lemma view_orders_menu_empty_witness :
  printed (events (view_orders_menu (Scenario.exchange_at "49000" false) [] []))
    = [[Txt (nl ++ "No open orders found.")%string]].
Proof.
  apply (view_orders_menu_empty (Scenario.exchange_at "49000" false) [] []).
  reflexivity.
Defined.

(* ===================================================================== *)
(** * Further properties: the main menu and [main] *)
(* ===================================================================== *)

(** Two continuations that agree after [m] give the same run. *)
Lemma bind_same {A B} (m : M A) (f g : A -> M B) (h : list event)
  (i : list string) :
  (forall a t i', m h i = mkRun (Ret a) t i' ->
                  f a (h ++ t) i' = g a (h ++ t) i') ->
  bind m f h i = bind m g h i.
Proof.
  intros H. unfold bind.
  destruct (m h i) as [[a|e] t i'] eqn:E; [|reflexivity].
  rewrite (H a t i' eq_refl). reflexivity.
Qed.

Section MenuLoop.

Variable P : platform.

(** X20. At the main menu, choice 6 ends the loop: the program says
    goodbye and returns, without any call to the exchange and leaving the
    lines that follow unread. *)
Theorem menu_loop_exit (n : nat) (c : string) (more : list string)
  (h : list event) :
  strip c = "6" ->
  let r := menu_loop P (S n) h (c :: more) in
  result r = Ret (Some tt) /\
  final (events r) = Some (Print [Txt "Goodbye!"]) /\
  calls (events r) = [] /\
  rest r = more.
Proof.
  intros C. cbn [menu_loop]. unfold print_menu. unfold_io. unfold input.
  simpl. rewrite C. simpl. auto.
Qed.

(** X21. At the main menu, the end of the input raises [EOFError] out
    of the loop, and an answer that is none of 1 to 6 is reported as an
    invalid option and costs one round: the loop goes on with the lines
    that follow, and the round has called the exchange not once. *)
Theorem menu_loop_other_answers (n : nat) (h : list event) :
  result (menu_loop P (S n) h []) = Raise EOFError /\
  forall c more,
    (forall k, In k ["1"; "2"; "3"; "4"; "5"; "6"] -> strip c <> k) ->
    exists round,
      calls round = [] /\
      final round = Some (Print [Txt "Invalid option. Please try again."]) /\
      events (menu_loop P (S n) h (c :: more))
        = round ++ events (menu_loop P n (h ++ round) more) /\
      result (menu_loop P (S n) h (c :: more))
        = result (menu_loop P n (h ++ round) more) /\
      rest (menu_loop P (S n) h (c :: more))
        = rest (menu_loop P n (h ++ round) more).
Proof.
  split.
  { cbn [menu_loop]. unfold print_menu. unfold_io. unfold input.
    reflexivity. }
  intros c more N.
  assert (E : forall k, In k ["1"; "2"; "3"; "4"; "5"; "6"] ->
                        String.eqb (strip c) k = false).
  { intros k Hk. apply String.eqb_neq. auto. }
  cbn [menu_loop]. unfold print_menu. unfold_io. unfold input.
  cbn -[menu_loop].
  rewrite !E by (simpl; auto 10).
  cbn -[menu_loop].
  match goal with
  | |- context [menu_loop P n ?h' more] =>
      match h' with
      | context [h ++ ?a] => idtac
      end;
      set (h1 := h')
  end.
  destruct (menu_loop P n h1 more) as [r t i'] eqn:L. cbn -[menu_loop].
  eexists.
  split; [|split; [|split; [|split]]].
  4: { match goal with
       | |- _ = result (menu_loop P n (h ++ ?round) more) =>
           replace (h ++ round) with h1; [rewrite L; reflexivity|]
       end.
       subst h1. rewrite <- !app_assoc. simpl. reflexivity. }
  4: { match goal with
       | |- _ = rest (menu_loop P n (h ++ ?round) more) =>
           replace (h ++ round) with h1; [rewrite L; reflexivity|]
       end.
       subst h1. rewrite <- !app_assoc. simpl. reflexivity. }
  3: { match goal with
       | |- _ = ?round ++ events (menu_loop P n (h ++ ?round) more) =>
           replace (h ++ round) with h1; [rewrite L; reflexivity|]
       end.
       subst h1. rewrite <- !app_assoc. simpl. reflexivity. }
  - reflexivity.
  - reflexivity.
Qed.

Lemma menu_loop_fuel (n m : nat) (h : list event) (i : list string) :
  List.length i < n -> n <= m -> menu_loop P m h i = menu_loop P n h i.
Proof.
  revert m h i. induction n as [|n IH]; intros m h i Hlen Hm; [lia|].
  destruct m as [|m]; [lia|].
  assert (Step : forall (m0 : M unit) h' i',
            consumes m0 -> List.length i' < n ->
            bind m0 (fun _ => menu_loop P m) h' i'
            = bind m0 (fun _ => menu_loop P n) h' i').
  { intros m0 h' i' Hc Hi. apply bind_same. intros a t i2 E.
    apply IH; [|lia].
    specialize (Hc h' i'). rewrite E in Hc. simpl in Hc. lia. }
  cbn [menu_loop].
  apply bind_same. intros [] t i1 E1.
  pose proof (consumes_print_menu h i) as H1. rewrite E1 in H1. simpl in H1.
  apply bind_same. intros c t2 i2 E2.
  unfold input in E2. destruct i1 as [|c' i1]; [discriminate|].
  injection E2 as <- <- <-. simpl in H1.
  assert (Hi : List.length i1 < n) by lia.
  repeat match goal with
         | |- (if ?b then _ else _) _ _ = _ => destruct b
         end.
  - apply Step; [apply (consumes_order_menu P MARKET)|exact Hi].
  - apply Step; [apply (consumes_order_menu P LIMIT)|exact Hi].
  - apply Step; [apply (consumes_order_menu P STOP_LIMIT)|exact Hi].
  - apply Step; [apply consumes_view_account_menu|exact Hi].
  - apply Step; [apply consumes_view_orders_menu|exact Hi].
  - reflexivity.
  - apply Step; [apply consumes_emit|exact Hi].
Qed.

(** X22. The program ends on every finite input: once more rounds are
    allowed than there are input lines, [main] never reports a loop
    still running, and allowing more rounds changes nothing of its run. *)
Theorem main_ends (api_key api_secret : option string) (args : Namespace)
  (n m : nat) (h : list event) (i : list string) :
  List.length i < n -> n <= m ->
  result (main P api_key api_secret args n h i) <> Ret None /\
  main P api_key api_secret args m h i = main P api_key api_secret args n h i.
Proof.
  intros Hlen Hm. unfold main.
  destruct (batch_gate api_key api_secret args) as [[[[sym sd] ty] q]|].
  - split; [|reflexivity].
    apply bind_result; [discriminate|]. intros a t i' _. simpl. discriminate.
  - split; [apply main_menu_ends; exact Hlen|].
    unfold main_menu. apply bind_same. intros ok t i' E.
    assert (Hs : consumes (setup_bot P)).
    { unfold setup_bot, TradingBot, test_connection. unfold setup_logging.
      consumes_all. }
    specialize (Hs h i). rewrite E in Hs. simpl in Hs.
    destruct ok; simpl; [|reflexivity].
    apply menu_loop_fuel; lia.
Qed.

(** X23. A quantity flag of zero counts as a missing flag: whatever the
    other flags and the environment, [main] then runs the interactive
    menu instead of the batch branch. *)
Theorem zero_quantity_goes_interactive (api_key api_secret : option string)
  (args : Namespace) (q : float) (fuel : nat) (h : list event)
  (i : list string) :
  quantity args = Some q -> float_truthy q = false ->
  main P api_key api_secret args fuel h i = main_menu P fuel h i.
Proof.
  intros Q Z. unfold main, batch_gate. rewrite Q, Z.
  destruct (env_truthy api_key && env_truthy api_secret); [|reflexivity].
  destruct (symbol args) as [sym|]; [|reflexivity].
  destruct (side args); [|reflexivity].
  destruct (type args); [|reflexivity].
  rewrite andb_false_r. reflexivity.
Qed.

End MenuLoop.

Lemma menu_loop_exit_witness :
  let r := menu_loop (Scenario.exchange_at "49000" false) 1 [] [" 6 "; "1"] in
  result r = Ret (Some tt) /\
  final (events r) = Some (Print [Txt "Goodbye!"]) /\
  calls (events r) = [] /\
  rest r = ["1"].
Proof.
  apply (menu_loop_exit (Scenario.exchange_at "49000" false) 0 " 6 " ["1"] []).
  vm_compute. reflexivity.
Defined.

Lemma main_ends_witness :
  let P := Scenario.exchange_at "49000" false in
  let i := ["my-key"; "my-secret"; "5"; "9"; "6"] in
  result (main P None None Scenario.no_flags 6 [] i) <> Ret None /\
  main P None None Scenario.no_flags 9 [] i
    = main P None None Scenario.no_flags 6 [] i.
Proof.
  apply (main_ends (Scenario.exchange_at "49000" false) None None
           Scenario.no_flags 6 9 []
           ["my-key"; "my-secret"; "5"; "9"; "6"]); simpl; lia.
Defined.

Lemma zero_quantity_goes_interactive_witness :
  let P := Scenario.exchange_at "49000" false in
  let args := Scenario.flags BUY MARKET (S754_zero false) None None in
  main P (Some "key") (Some "secret") args 3 [] ["k"; "s"; "6"]
    = main_menu P 3 [] ["k"; "s"; "6"].
Proof.
  apply (zero_quantity_goes_interactive (Scenario.exchange_at "49000" false)
           (Some "key") (Some "secret")
           (Scenario.flags BUY MARKET (S754_zero false) None None)
           (S754_zero false) 3 [] ["k"; "s"; "6"]); reflexivity.
Defined.

(* ===================================================================== *)
(** * Further properties: the batch branch *)
(* ===================================================================== *)

Lemma prompts_app (a b : list event) :
  prompts (a ++ b) = prompts a ++ prompts b.
Proof.
  induction a as [|e a IH]; simpl; [reflexivity|].
  destruct e; simpl; rewrite IH; reflexivity.
Qed.

Lemma silent_ret {A} (a : A) : silent (ret a).
Proof. intros h i. simpl. auto. Qed.

Lemma silent_raise {A} (e : exn) : silent (@raise A e).
Proof. intros h i. simpl. auto. Qed.

Lemma silent_lift {A} (r : res A) : silent (lift r).
Proof. intros h i. simpl. auto. Qed.

Lemma silent_print (text : fmt) : silent (print text).
Proof. intros h i. simpl. auto. Qed.

Lemma silent_log (lvl : level) (text : fmt) : silent (emit (Log lvl text)).
Proof. intros h i. simpl. auto. Qed.

Lemma silent_client (P : platform) (c : call) : silent (client P c).
Proof. intros h i. simpl. auto. Qed.

Lemma silent_bind {A B} (m : M A) (f : A -> M B) :
  silent m -> (forall a, silent (f a)) -> silent (bind m f).
Proof.
  intros Hm Hf h i. unfold bind. destruct (Hm h i) as [Hc Hr].
  destruct (m h i) as [[a|e] t i']; simpl in *; [|auto].
  destruct (Hf a (h ++ t) i') as [Hc' Hr'].
  destruct (f a (h ++ t) i') as [r' t' i'']; simpl in *.
  rewrite prompts_app, Hc, Hc'. subst. auto.
Qed.

Lemma silent_try {A} (m : M A) (f : exn -> M A) :
  silent m -> (forall e, silent (f e)) -> silent (try_ m f).
Proof.
  intros Hm Hf h i. unfold try_. destruct (Hm h i) as [Hc Hr].
  destruct (m h i) as [[a|e] t i']; simpl in *; [auto|].
  destruct (Hf e (h ++ t) i') as [Hc' Hr'].
  destruct (f e (h ++ t) i') as [r' t' i'']; simpl in *.
  rewrite prompts_app, Hc, Hc'. subst. auto.
Qed.

Ltac silent_step :=
  match goal with
  | |- silent (bind _ _) => apply silent_bind; [|intros]
  | |- silent (try_ _ _) => apply silent_try; [|intros]
  | |- silent (ret _) => apply silent_ret
  | |- silent (raise _) => apply silent_raise
  | |- silent (lift _) => apply silent_lift
  | |- silent (print _) => apply silent_print
  | |- silent (logger_info _) => apply silent_log
  | |- silent (logger_error _) => apply silent_log
  | |- silent (client _ _) => apply silent_client
  | |- silent (match ?x with _ => _ end) => destruct x
  | |- silent (if ?b then _ else _) => destruct b
  end.

(** Replaces the run of an operation of the bot by its footprint. *)
Ltac bot_footprints :=
  match goal with
  | |- context [get_current_price ?P ?s ?h ?i] =>
      let F := fresh "F" in
      pose proof (get_current_price_footprint P s h i) as F;
      destruct (get_current_price P s h i) as [[?|?] ? ?]
  | |- context [place_market_order ?P ?s ?d ?q ?h ?i] =>
      let F := fresh "F" in
      pose proof (place_market_order_footprint P s d q h i) as F;
      destruct (place_market_order P s d q h i) as [[?|?] ? ?]
  | |- context [place_limit_order ?P ?s ?d ?q ?p ?h ?i] =>
      let F := fresh "F" in
      pose proof (place_limit_order_footprint P s d q p h i) as F;
      destruct (place_limit_order P s d q p h i) as [[?|?] ? ?]
  | |- context [place_stop_limit_order ?P ?s ?d ?q ?sp ?lp ?h ?i] =>
      let F := fresh "F" in
      pose proof (place_stop_limit_order_footprint P s d q sp lp h i) as F;
      destruct (place_stop_limit_order P s d q sp lp h i) as [[?|?] ? ?]
  | |- context [display_order_details ?P ?o ?h ?i] =>
      let F := fresh "F" in
      pose proof (display_order_details_footprint P o h i) as F;
      destruct (display_order_details P o h i) as [[?|?] ? ?]
  end;
  match goal with
  | F : footprint _ _ _ |- _ =>
      unfold footprint in F; simpl in F;
      let F1 := fresh "Fc" in let F2 := fresh "Fa" in let F3 := fresh "Fr" in
      destruct F as (F1 & F2 & F3); subst
  end.

(** Reads the calls and answers of a finished run. *)
Ltac read_calls :=
  unfold final;
  repeat (simpl;
          rewrite ?submits_calls, ?calls_app, ?answers_app, ?fold_left_app;
          repeat match goal with
                 | H : calls _ = _ |- _ => rewrite H
                 | H : answers _ = _ |- _ => rewrite H
                 end);
  simpl.

Section BatchOutcomes.

Variable P : platform.

Lemma silent_place_market_order s d q : silent (place_market_order P s d q).
Proof.
  unfold place_market_order, log_order, order_handler. repeat silent_step.
Qed.

Lemma silent_place_limit_order s d q p :
  silent (place_limit_order P s d q p).
Proof.
  unfold place_limit_order, log_order, order_handler. repeat silent_step.
Qed.

Lemma silent_place_stop_limit_order s d q sp lp :
  silent (place_stop_limit_order P s d q sp lp).
Proof.
  unfold place_stop_limit_order, log_order, order_handler.
  repeat silent_step.
Qed.

Lemma silent_display_order_details o : silent (display_order_details P o).
Proof. unfold display_order_details, print_field. repeat silent_step. Qed.

(** X24. In the batch branch a limit order without a price, or with a
    price of zero, and a stop-limit order that lacks either price, or has
    a zero for one, is answered by one printed line; the exchange is not
    called. *)
Theorem batch_order_requires_prices (args : Namespace) (sym : string)
  (sd : Side) (ty : OrderType) (q : float) (h : list event)
  (i : list string) :
  (ty = LIMIT /\ flag_missing (price args) = true) \/
  (ty = STOP_LIMIT /\
   (flag_missing (price args) = true \/
    flag_missing (stop_price args) = true)) ->
  let r := batch_order P args sym sd ty q h i in
  result r = Ret tt /\
  calls (events r) = [] /\
  printed (events r)
    = [[Txt (match ty with
             | LIMIT => "Price is required for limit orders"
             | _ => "Both price and stop-price are required for stop-limit orders"
             end)]].
Proof.
  intros [[-> L]|[-> L]]; unfold batch_order.
  - rewrite L. simpl. auto.
  - replace (flag_missing (price args) || flag_missing (stop_price args))
      with true; [simpl; auto|].
    symmetry. apply orb_true_iff. exact L.
Qed.

(** X25. In the batch branch, a stop-limit order with both prices given
    is decided by the last price the ticker returns: a BUY whose stop
    price is at or below it and a SELL whose stop price is at or above it
    are refused without a submit call; every other order, among them any
    order when the last price is NaN, is submitted once with the
    stop-limit parameters of the flags. *)
Theorem batch_stop_limit_direction (args : Namespace) (sym : string)
  (sd : Side) (q pr sp cur : float) (ticker v : pyval)
  (h : list event) (i : list string) :
  price args = Some pr -> float_truthy pr = true ->
  stop_price args = Some sp -> float_truthy sp = true ->
  exchange P h (futures_symbol_ticker (upper sym)) = Ret ticker ->
  getitem ticker "price" = Ret v ->
  float_of v = Ret cur ->
  submits (events (batch_order P args sym sd STOP_LIMIT q h i))
    = if (side_is sd BUY && fle sp cur) || (side_is sd SELL && fge sp cur)
      then []
      else [stop_limit_params sym (side_str sd) q sp pr].
Proof.
  intros Hp Hpt Hs Hst Ht Hg Hf.
  unfold batch_order, flag_missing. rewrite Hp, Hs, Hpt, Hst. simpl.
  unfold_io. simpl. rewrite Ht, Hg. simpl. rewrite Hf. simpl.
  destruct sd; simpl;
    [destruct (fle sp cur) | destruct (fge sp cur)]; simpl;
    try reflexivity;
    repeat (first [bot_footprints | break_match]; simpl);
    read_calls; reflexivity.
Qed.

(** X26. The batch branch never prompts and reads no input, so it asks
    for no confirmation; it calls the submit operation at most once. *)
Theorem batch_order_asks_nothing (args : Namespace) (sym : string)
  (sd : Side) (ty : OrderType) (q : float) (h : list event)
  (i : list string) :
  let r := batch_order P args sym sd ty q h i in
  prompts (events r) = [] /\
  rest r = i /\
  List.length (submits (events r)) <= 1.
Proof.
  assert (S : silent (batch_order P args sym sd ty q)).
  { unfold batch_order. repeat silent_step;
      auto using silent_place_market_order, silent_place_limit_order,
        silent_place_stop_limit_order, silent_display_order_details. }
  destruct (S h i) as [Sp Sr]. split; [exact Sp|]. split; [exact Sr|].
  unfold batch_order.
  destruct ty; unfold_io; simpl;
    repeat (first [bot_footprints | break_match]; simpl);
    read_calls; lia.
Qed.

End BatchOutcomes.

Lemma batch_order_requires_prices_witness :
  let q := Scenario.num 1 (-2) in
  let r := batch_order (Scenario.exchange_at "49000" false)
             (Scenario.flags BUY LIMIT q (Some (S754_zero false)) None)
             "BTCUSDT" BUY LIMIT q [] [] in
  result r = Ret tt /\
  calls (events r) = [] /\
  printed (events r) = [[Txt "Price is required for limit orders"]].
Proof.
  apply (batch_order_requires_prices (Scenario.exchange_at "49000" false)
           (Scenario.flags BUY LIMIT (Scenario.num 1 (-2))
              (Some (S754_zero false)) None)
           "BTCUSDT" BUY LIMIT (Scenario.num 1 (-2)) [] []).
  left. split; reflexivity.
Defined.

Lemma batch_stop_limit_direction_witness :
  let q := Scenario.num 1 (-2) in
  submits
    (events
       (batch_order (Scenario.exchange_at "49000" false)
          (Scenario.flags SELL STOP_LIMIT q
             (Some (Scenario.num 49900 0)) (Some (Scenario.num 50000 0)))
          "BTCUSDT" SELL STOP_LIMIT q [] []))
    = if (side_is SELL BUY
          && fle (Scenario.num 50000 0) (Scenario.num 49000 0))
         || (side_is SELL SELL
             && fge (Scenario.num 50000 0) (Scenario.num 49000 0))
      then []
      else [stop_limit_params "BTCUSDT" (side_str SELL) q
              (Scenario.num 50000 0) (Scenario.num 49900 0)].
Proof.
  apply (batch_stop_limit_direction (Scenario.exchange_at "49000" false)
           (Scenario.flags SELL STOP_LIMIT (Scenario.num 1 (-2))
              (Some (Scenario.num 49900 0)) (Some (Scenario.num 50000 0)))
           "BTCUSDT" SELL (Scenario.num 1 (-2))
           (Scenario.num 49900 0) (Scenario.num 50000 0)
           (Scenario.num 49000 0)
           (VDict [("symbol", VStr "BTCUSDT"); ("price", VStr "49000")])
           (VStr "49000") [] []);
    vm_compute; reflexivity.
Defined.

(* ===================================================================== *)
(** * Further properties: the interactive order workflows *)
(* ===================================================================== *)

Section WorkflowOutcomes.

Variable P : platform.

(** Walks through a menu: case analysis on the input lines, on the
    outcome of the validation and of the price block, and on the runs of
    the operations of the bot, taken by their footprints. *)
Ltac walk_menu :=
  unfold_io; unfold input, report; unfold_io; simpl;
  repeat (first [bot_footprints | break_match]; simpl).

(** X27. When [validate_inputs] refuses the symbol, side and quantity
    typed, the workflow ends on the report of the validator's own error;
    the exchange has not been called, not even for the price. *)
Theorem refused_inputs_are_reported (ty : OrderType) (h : list event)
  (symbol side quantity : string) (more : list string) (e : exn) :
  validate_inputs (strip symbol) (strip side) (strip quantity) = Raise e ->
  menu_lines ty - 4 <= List.length more ->
  let r := order_menu P ty h (symbol :: side :: quantity :: more) in
  calls (events r) = [] /\
  final (events r) = Some (Print [Txt "Error: "; Err e]).
Proof.
  intros H L.
  destruct ty; simpl in *;
    [unfold market_order_menu | unfold limit_order_menu
    | unfold stop_limit_order_menu];
    unfold_io; unfold input, report; unfold_io; simpl;
    repeat match goal with
           | |- context [match ?l with [] => _ | _ :: _ => _ end] =>
               is_var l; destruct l; simpl in *; try lia
           end;
    rewrite ?H; simpl; auto.
Qed.

(** X28. Each interactive order workflow returns to the main menu
    whatever happens in it: every exception, the end of the input
    included, is caught and reported.  It reads the first lines of the
    input, at most four for a market order, five for a limit order and
    six for a stop-limit order, and leaves the others. *)
Theorem order_menu_reads_its_lines (ty : OrderType) (h : list event)
  (i : list string) :
  let r := order_menu P ty h i in
  result r = Ret tt /\
  exists k, k <= menu_lines ty /\ rest r = skipn k i.
Proof.
  split; [apply order_menu_returns|].
  destruct ty; simpl;
    [unfold market_order_menu | unfold limit_order_menu
    | unfold stop_limit_order_menu];
    walk_menu;
    first [ exists 0; split; [lia|reflexivity]
          | exists 1; split; [lia|reflexivity]
          | exists 2; split; [lia|reflexivity]
          | exists 3; split; [lia|reflexivity]
          | exists 4; split; [lia|reflexivity]
          | exists 5; split; [lia|reflexivity]
          | exists 6; split; [lia|reflexivity] ].
Qed.

(** X29. While the ticker of the exchange fails, no interactive order
    workflow reaches its confirmation prompt or submits anything: each
    run ends on an error report. *)
Theorem price_lookup_down_blocks_orders (ty : OrderType) (h : list event)
  (i : list string) :
  (forall h' s, exists e,
     exchange P h' (futures_symbol_ticker s) = Raise e) ->
  let r := order_menu P ty h i in
  submits (events r) = [] /\
  answers (events r) = [] /\
  exists e, final (events r) = Some (Print [Txt "Error: "; Err e]).
Proof.
  intros Down.
  assert (Fail : forall s h' i', exists e t,
            get_current_price P s h' i' = mkRun (Raise e) t i' /\
            calls t = [futures_symbol_ticker (upper s)] /\ answers t = []).
  { intros s h' i'.
    destruct (get_current_price_outcome P s h' i') as (O & _).
    destruct (get_current_price_footprint P s h' i') as (Fc & Fa & Fr).
    destruct (Down h' (upper s)) as [e He]. rewrite He in O. simpl in O.
    destruct (get_current_price P s h' i') as [r t i2]. simpl in *.
    subst. eauto. }
  destruct ty; simpl;
    [unfold market_order_menu | unfold limit_order_menu
    | unfold stop_limit_order_menu];
    unfold_io; unfold input, report; unfold_io; simpl;
    repeat (first
              [ match goal with
                | |- context [get_current_price P ?s ?h' ?i'] =>
                    let e := fresh "e" in
                    let t := fresh "t" in
                    let E := fresh "E" in
                    destruct (Fail s h' i') as (e & t & E & ? & ?);
                    rewrite E
                end
              | break_match ]; simpl);
    read_calls; eauto.
Qed.

(** X30. What an interactive order workflow submits is the order the
    typed lines describe: either nothing is submitted, or the validator
    and the price block accept the stripped lines and the one submit
    call carries the parameters built from what they return.  Nothing
    the exchange answers changes the order. *)
Theorem submitted_is_entered (ty : OrderType) (h : list event)
  (i : list string) :
  let r := order_menu P ty h i in
  submits (events r) = [] \/
  exists ps, entered_params ty i = Ret ps /\ submits (events r) = [ps].
Proof.
  destruct ty; simpl;
    [unfold market_order_menu | unfold limit_order_menu
    | unfold stop_limit_order_menu];
    walk_menu;
    first
      [ left; read_calls; reflexivity
      | right; subst;
        repeat match goal with
               | H : validate_inputs _ _ _ = _ |- _ => rewrite H; simpl
               | H : parse_limit_price _ = _ |- _ => rewrite H; simpl
               | H : parse_stop_limit_prices _ _ = _ |- _ => rewrite H; simpl
               end;
        eexists; split; [reflexivity|read_calls; reflexivity] ].
Qed.

End WorkflowOutcomes.

Lemma refused_inputs_are_reported_witness :
  let r := order_menu (Scenario.exchange_at "49000" false) LIMIT []
             ["BTCUSDT"; "hold"; "1"; "50000"; "y"] in
  calls (events r) = [] /\
  final (events r)
    = Some (Print [Txt "Error: ";
                   Err (ValueError "Side must be 'BUY' or 'SELL'")]).
Proof.
  apply (refused_inputs_are_reported (Scenario.exchange_at "49000" false)
           LIMIT [] "BTCUSDT" "hold" "1" ["50000"; "y"]).
  - vm_compute. reflexivity.
  - simpl. lia.
Defined.

Lemma price_lookup_down_blocks_orders_witness :
  let P := {| exchange := fun _ _ => Raise (OtherException "ConnectionError"
                                              "connection refused");
              fromtimestamp_ms := fun _ => Ret "" |} in
  let r := order_menu P MARKET [] ["BTCUSDT"; "BUY"; "1"; "y"] in
  submits (events r) = [] /\
  answers (events r) = [] /\
  exists e, final (events r) = Some (Print [Txt "Error: "; Err e]).
Proof.
  apply (price_lookup_down_blocks_orders
           {| exchange := fun _ _ => Raise (OtherException "ConnectionError"
                                              "connection refused");
              fromtimestamp_ms := fun _ => Ret "" |}
           MARKET [] ["BTCUSDT"; "BUY"; "1"; "y"]).
  intros h' s. eexists. reflexivity.
Defined.

Lemma view_orders_menu_lists_all_witness :
  let order :=
    VDict [("orderId", VInt 7); ("symbol", VStr "BTCUSDT");
           ("side", VStr "BUY"); ("type", VStr "LIMIT");
           ("origQty", VStr "0.010"); ("price", VStr "48000");
           ("status", VStr "NEW")] in
  let P := {| exchange := fun _ _ => Ret (VList [order; order]);
              fromtimestamp_ms := fun _ => Ret "" |} in
  List.length (printed (events (view_orders_menu P [] []))) = 2 + 3 * 2.
Proof.
  intros order P.
  apply (view_orders_menu_lists_all P [order; order] [] []); reflexivity.
Defined.


Lemma display_order_details_stop_line_witness :
  let P := Scenario.exchange_at "49000" false in
  let d := [("orderId", VInt 7); ("stopPrice", VStr "48000")] in
  let r := display_order_details P (VDict d) [] [] in
  result r = Ret tt /\
  ((exists sp, In [Txt "Stop Price: "; Val sp] (printed (events r))) <->
   (exists sp, assoc "stopPrice" d = Some sp /\ ne_str sp "0" = true)).
Proof.
  apply (display_order_details_stop_line (Scenario.exchange_at "49000" false)
           [("orderId", VInt 7); ("stopPrice", VStr "48000")]
           "2023-11-14 22:13:20" [] []).
  reflexivity.
Defined.
